(** * Object-class registry of the VCMI engine

    A shallow embedding of [lib/mapObjects/CObjectClassesHandler.h] and of the
    legacy [CDefObjInfoHandler.h]: the placement descriptor [RandomMapInfo],
    the capability interface [IObjectInfo], the per-subtype handler
    [AObjectTypeHandler], the per-type [ObjectContainter], the registry
    [CObjectClassesHandler] with its versioned [serialize] members, and the
    legacy entry [CGDefInfo].

    Fixed-width integers ([si32], [ui32]) are values of [Z]; [std::map] is
    [gmap], [std::set] is [gset], [std::vector] is [list] and
    [boost::optional] is [option]. *)

From stdpp Require Import base option list gmap sets strings.
From Stdlib Require Import ZArith Lia.

Local Open Scope Z_scope.

(** ** Fixed-width integers *)

(** Narrowing conversion to [si32]: the value modulo 2^32, read as a signed
    two's-complement number. *)
Definition to_si32 (z : Z) : Z := (z + 2 ^ 31) `mod` 2 ^ 32 - 2 ^ 31.

(** The format version from which string identifiers are part of the
    persisted state ([if(version >= 759)] in both [serialize] members). *)
Definition STRING_ID_VERSION : Z := 759.

(** ** [RandomMapInfo] *)

Module RandomMapInfo.
(** [struct RandomMapInfo]: four [ui32] fields. *)
Record t : Type := Build {
  value : Z;
  mapLimit : Z;
  zoneLimit : Z;
  rarity : Z
}.

(** [RandomMapInfo()]: every field is initialised to 0. *)
Definition new : t :=
  {| value := 0; mapLimit := 0; zoneLimit := 0; rarity := 0 |}.
End RandomMapInfo.

(** ** External collaborators

    [ObjectTemplate.h], [JsonNode.h] and the configuration parser are used by
    the header but are not part of it.  They are taken as parameters: the two
    types, the terrain test of a template, and the readers that extract the
    generic fields of a configuration tree. *)

Class Collaborators : Type := {
  (* class JsonNode: a configuration tree *)
  JsonNode : Type;
  (* class ObjectTemplate: a visual and placement descriptor *)
  ObjectTemplate : Type;
  (* ObjectTemplate::canBePlacedAt: the terrain mask accepts the terrain *)
  canBePlacedAt : ObjectTemplate → Z → bool;
  (* human-readable name, handler-name and base fragment of a type entry *)
  readName : JsonNode → string;
  readHandlerName : JsonNode → string;
  readBase : JsonNode → JsonNode;
  (* generic fields of a subtype entry: RMG info, templates, custom name;
     None when the tree is malformed *)
  readTypeData :
    JsonNode → option (RandomMapInfo.t * list ObjectTemplate * option string);
  (* JsonUtils::inherit: a fragment merged over a base fragment *)
  inheritNode : JsonNode → JsonNode → JsonNode
}.

(** ** [IObjectInfo] *)

Module CArmyStructure.
(** [struct IObjectInfo::CArmyStructure]: four [ui32] strengths. *)
Record t : Type := Build {
  totalStrength : Z;
  shootersStrength : Z;
  flyersStrength : Z;
  walkersStrength : Z
}.

(** [CArmyStructure()]. *)
Definition new : t :=
  {| totalStrength := 0; shootersStrength := 0;
     flyersStrength := 0; walkersStrength := 0 |}.

(** [operator <]: [this->totalStrength < other.totalStrength]. *)
Definition lt (this other : t) : bool :=
  totalStrength this <? totalStrength other.
End CArmyStructure.

(** The virtual interface of [class IObjectInfo]: one field per virtual
    member, each taking the receiver. *)
Class IObjectInfo (T : Type) : Type := {
  minGuards : T → CArmyStructure.t;
  maxGuards : T → CArmyStructure.t;
  givesResources : T → bool;
  givesExperience : T → bool;
  givesMana : T → bool;
  givesMovement : T → bool;
  givesPrimarySkills : T → bool;
  givesSecondarySkills : T → bool;
  givesArtifacts : T → bool;
  givesCreatures : T → bool;
  givesSpells : T → bool;
  givesBonuses : T → bool
}.

(** An object of the base class itself: it has no data members. *)
Inductive IObjectInfoBase : Type := IObjectInfoBase_new.

(** The bodies the base class gives to its virtual members. *)
#[export] Instance IObjectInfoBase_vtable : IObjectInfo IObjectInfoBase := {
  minGuards _ := CArmyStructure.new;
  maxGuards _ := CArmyStructure.new;
  givesResources _ := false;
  givesExperience _ := false;
  givesMana _ := false;
  givesMovement _ := false;
  givesPrimarySkills _ := false;
  givesSecondarySkills _ := false;
  givesArtifacts _ := false;
  givesCreatures _ := false;
  givesSpells _ := false;
  givesBonuses _ := false
}.

(** ** [CGDefInfo] (legacy definition entry) *)

Module CGDefInfo.
(** [class CGDefInfo]; each mask is six [ui8] rows, the [handler] pointer is
    not part of the value. *)
Record t : Type := Build {
  name : string;
  visitMap : list Z;
  blockMap : list Z;
  coverageMap : list Z;
  shadowCoverage : list Z;
  visitDir : Z;
  id : Z;
  subid : Z;
  terrainAllowed : Z;
  terrainMenu : Z;
  width : Z;
  height : Z;
  type : Z;
  printPriority : Z
}.

(** [operator<]: [if(id!=por.id) return id<por.id; else return
    subid<por.subid;]. *)
Definition lt (this por : t) : bool :=
  if negb (id this =? id por) then id this <? id por
  else subid this <? subid por.
End CGDefInfo.

(** ** The archive

    [h & a & b] hands the members [a], [b] to the archive [h] in that order;
    a saving archive appends each member to the stream and a loading archive
    reads each member back from it.  The archive classes (the [Handler] of a
    [serialize] template) are not part of the header: a stream is a list of
    items, a member type comes with a codec, and a [serialize] body is the
    list of members it visits. *)

Section Archive.
Context {ext : Collaborators}.

(** Modelled from the spec: the persisted state is a versioned binary
    stream and the archive classes are missing; one item of the stream is one
    primitive value. *)
Inductive Item : Type :=
| ISi32 (z : Z)
| IUi32 (z : Z)
| IBool (b : bool)
| IString (s : string)
| ILength (n : nat)
| IJson (j : JsonNode)
| ITemplate (tmpl : ObjectTemplate).

(** Modelled from the spec: how the missing archive writes and reads a
    value of one type. *)
Record Codec (V : Type) : Type := MkCodec {
  put : V → list Item;
  take : list Item → option (V * list Item)
}.
Arguments put {V} _ _.
Arguments take {V} _ _.

(** One member handed to the archive: how it is read from and stored into
    the object, and the codec of its type. *)
Inductive Field (O : Type) : Type :=
| field {V : Type} (get : O → V) (set : V → O → O) (c : Codec V).
Arguments field {O V} _ _ _.

(** Modelled from the spec: the saving archive, which is missing, writes
    the members in the order [serialize] hands them over. *)
Fixpoint save {O : Type} (fs : list (Field O)) (o : O) : list Item :=
  match fs with
  | [] => []
  | field get _ c :: fs' => put c (get o) ++ save fs' o
  end.

(** Modelled from the spec: the loading archive, which is missing, reads
    the members in the same order; members that are not visited keep the
    value they have in [o]. *)
Fixpoint load {O : Type} (fs : list (Field O)) (o : O) (ar : list Item)
  : option (O * list Item) :=
  match fs with
  | [] => Some (o, ar)
  | field _ set c :: fs' =>
      match take c ar with
      | Some (v, ar') => load fs' (set v o) ar'
      | None => None
      end
  end.

(** Modelled from the spec: the primitive types of the missing archive, one
    item each. *)
Definition si32_codec : Codec Z :=
  {| put z := [ISi32 z];
     take ar :=
       match ar with ISi32 z :: ar' => Some (z, ar') | _ => None end |}.

Definition ui32_codec : Codec Z :=
  {| put z := [IUi32 z];
     take ar :=
       match ar with IUi32 z :: ar' => Some (z, ar') | _ => None end |}.

Definition string_codec : Codec string :=
  {| put s := [IString s];
     take ar :=
       match ar with IString s :: ar' => Some (s, ar') | _ => None end |}.

Definition json_codec : Codec JsonNode :=
  {| put j := [IJson j];
     take ar :=
       match ar with IJson j :: ar' => Some (j, ar') | _ => None end |}.

Definition template_codec : Codec ObjectTemplate :=
  {| put x := [ITemplate x];
     take ar :=
       match ar with ITemplate x :: ar' => Some (x, ar') | _ => None end |}.

(** Modelled from the spec: a key and its value, one after the other. *)
Definition pair_codec {A B : Type} (ca : Codec A) (cb : Codec B)
  : Codec (A * B) :=
  {| put p := put ca p.1 ++ put cb p.2;
     take ar :=
       match take ca ar with
       | Some (a, ar') =>
           match take cb ar' with
           | Some (b, ar'') => Some ((a, b), ar'')
           | None => None
           end
       | None => None
       end |}.

(** Modelled from the spec: [n] consecutive values of one codec. *)
Fixpoint take_n {V : Type} (c : Codec V) (n : nat) (ar : list Item)
  : option (list V * list Item) :=
  match n with
  | O => Some ([], ar)
  | S n' =>
      match take c ar with
      | Some (v, ar') =>
          match take_n c n' ar' with
          | Some (vs, ar'') => Some (v :: vs, ar'')
          | None => None
          end
      | None => None
      end
  end.

(** Modelled from the spec: the missing archive writes a [std::vector] as
    its length, then the elements in order. *)
Definition vector_codec {V : Type} (c : Codec V) : Codec (list V) :=
  {| put l := ILength (length l) :: concat (put c <$> l);
     take ar :=
       match ar with
       | ILength n :: ar' => take_n c n ar'
       | _ => None
       end |}.

(** Modelled from the spec: the missing archive writes a [boost::optional]
    as a presence flag, then the value if there is one. *)
Definition optional_codec {V : Type} (c : Codec V) : Codec (option V) :=
  {| put o :=
       match o with
       | Some v => IBool true :: put c v
       | None => [IBool false]
       end;
     take ar :=
       match ar with
       | IBool true :: ar' =>
           match take c ar' with
           | Some (v, ar'') => Some (Some v, ar'')
           | None => None
           end
       | IBool false :: ar' => Some (None, ar')
       | _ => None
       end |}.

(** Modelled from the spec: the missing archive writes a [std::map] as its
    size, then the key and value of every entry, here in the order in which
    [map_to_list] enumerates them; on loading the entries are inserted one
    by one, an entry never replacing an earlier one with the same key. *)
Definition map_codec {K : Type} `{Countable K} {V : Type}
    (ck : Codec K) (cv : Codec V) : Codec (gmap K V) :=
  {| put m :=
       ILength (size m) :: concat (put (pair_codec ck cv) <$> map_to_list m);
     take ar :=
       match ar with
       | ILength n :: ar' =>
           match take_n (pair_codec ck cv) n ar' with
           | Some (l, ar'') => Some (list_to_map l, ar'')
           | None => None
           end
       | _ => None
       end |}.

(** Modelled from the spec: the missing archive saves an object with a
    [serialize] member by it, and loads it by it into a newly created object
    [blank]; a pointer is written as the object it points to. *)
Definition object_codec {O : Type} (fs : list (Field O)) (blank : O)
  : Codec O :=
  {| put := save fs; take := load fs blank |}.

(** A codec reads back what it has written and leaves the rest of the
    stream; [norm] is what loading makes of a saved value. *)
Definition codec_ok {V : Type} (c : Codec V) (norm : V → V) : Prop :=
  ∀ v rest, take c (put c v ++ rest) = Some (norm v, rest).

End Archive.

Arguments put {ext V} _ _.
Arguments take {ext V} _ _.
Arguments field {ext O V} _ _ _.


(** [RandomMapInfo::serialize]: [h & value & mapLimit & zoneLimit & rarity]. *)
Definition RandomMapInfo_serialize {ext : Collaborators} (version : Z)
  : list (Field RandomMapInfo.t) :=
  [ field RandomMapInfo.value
      (λ v o, RandomMapInfo.Build v (RandomMapInfo.mapLimit o)
                (RandomMapInfo.zoneLimit o) (RandomMapInfo.rarity o))
      ui32_codec;
    field RandomMapInfo.mapLimit
      (λ v o, RandomMapInfo.Build (RandomMapInfo.value o) v
                (RandomMapInfo.zoneLimit o) (RandomMapInfo.rarity o))
      ui32_codec;
    field RandomMapInfo.zoneLimit
      (λ v o, RandomMapInfo.Build (RandomMapInfo.value o)
                (RandomMapInfo.mapLimit o) v (RandomMapInfo.rarity o))
      ui32_codec;
    field RandomMapInfo.rarity
      (λ v o, RandomMapInfo.Build (RandomMapInfo.value o)
                (RandomMapInfo.mapLimit o) (RandomMapInfo.zoneLimit o) v)
      ui32_codec ].

(** ** [AObjectTypeHandler] *)

Module AObjectTypeHandler.
Section WithCollaborators.
Context {ext : Collaborators}.

(** The data members of [class AObjectTypeHandler]. *)
Record t : Type := Build {
  rmgInfo : RandomMapInfo.t;
  objectName : option string;
  base : JsonNode;
  templates : list ObjectTemplate;
  typeName : string;
  subTypeName : string;
  type : Z;
  subtype : Z
}.

Definition with_rmgInfo (v : RandomMapInfo.t) (h : t) : t :=
  Build v (objectName h) (base h) (templates h) (typeName h) (subTypeName h)
    (type h) (subtype h).
Definition with_objectName (v : option string) (h : t) : t :=
  Build (rmgInfo h) v (base h) (templates h) (typeName h) (subTypeName h)
    (type h) (subtype h).
Definition with_base (v : JsonNode) (h : t) : t :=
  Build (rmgInfo h) (objectName h) v (templates h) (typeName h)
    (subTypeName h) (type h) (subtype h).
Definition with_templates (v : list ObjectTemplate) (h : t) : t :=
  Build (rmgInfo h) (objectName h) (base h) v (typeName h) (subTypeName h)
    (type h) (subtype h).
Definition with_typeName (v : string) (h : t) : t :=
  Build (rmgInfo h) (objectName h) (base h) (templates h) v (subTypeName h)
    (type h) (subtype h).
Definition with_subTypeName (v : string) (h : t) : t :=
  Build (rmgInfo h) (objectName h) (base h) (templates h) (typeName h) v
    (type h) (subtype h).
Definition with_type (v : Z) (h : t) : t :=
  Build (rmgInfo h) (objectName h) (base h) (templates h) (typeName h)
    (subTypeName h) v (subtype h).
Definition with_subtype (v : Z) (h : t) : t :=
  Build (rmgInfo h) (objectName h) (base h) (templates h) (typeName h)
    (subTypeName h) (type h) v.

(** [serialize]:
    [h & type & subtype & templates & rmgInfo & objectName;
     if(version >= 759) { h & typeName & subTypeName; }].
    The embedded [rmgInfo] is loaded through its own [serialize], which
    assigns all four of its members. *)
Definition serialize (version : Z) : list (Field t) :=
  [ field type with_type si32_codec;
    field subtype with_subtype si32_codec;
    field templates with_templates (vector_codec template_codec);
    field rmgInfo with_rmgInfo
      (object_codec (RandomMapInfo_serialize version) RandomMapInfo.new);
    field objectName with_objectName (optional_codec string_codec) ]
  ++ (if bool_decide (version >= 759) then
        [ field typeName with_typeName string_codec;
          field subTypeName with_subTypeName string_codec ]
      else []).

(** The handler a loading archive of format [version] makes of the stream
    of [h] when it loads into [target]: [base] is never in the stream, the
    two names only from version 759 on. *)
Definition loaded (version : Z) (target h : t) : t :=
  if bool_decide (version >= 759) then with_base (base target) h
  else
    with_subTypeName (subTypeName target)
      (with_typeName (typeName target) (with_base (base target) h)).

(** Modelled from the spec: the bodies of [setType], [setTypeName],
    [addTemplate], [getTemplates] and [init] are not in the header, which
    only declares them.  [setType] and [setTypeName] store the identity. *)
Definition setType (type' subtype' : Z) (h : t) : t :=
  with_subtype subtype' (with_type type' h).

(** Modelled from the spec: the body of [setTypeName] is missing; it stores
    the two strings. *)
Definition setTypeName (type' subtype' : string) (h : t) : t :=
  with_subTypeName subtype' (with_typeName type' h).

(** Modelled from the spec: [addTemplate] appends a template. *)
Definition addTemplate (templ : ObjectTemplate) (h : t) : t :=
  with_templates (templates h ++ [templ]) h.

(** Modelled from the spec: [getTemplates()] returns all templates. *)
Definition getTemplates (h : t) : list ObjectTemplate := templates h.

(** Modelled from the spec: [getTemplates(terrainType)] goes through
    [getTemplates()] front to back and appends to the result every template
    whose terrain mask accepts [terrainType]. *)
Definition getTemplatesOn (terrainType : Z) (h : t) : list ObjectTemplate :=
  foldl (λ filtered templ,
           if canBePlacedAt templ terrainType then filtered ++ [templ]
           else filtered)
        [] (getTemplates h).

(** Modelled from the spec: [init] reads the generic fields (RMG info,
    templates, custom name) from the configuration tree and stores them,
    adding the templates one by one; a name given by the caller is used when
    the tree has none.  [None] is a malformed tree. *)
Definition init (input : JsonNode) (name : option string) (h : t)
  : option t :=
  match readTypeData input with
  | Some (rmg, tmpls, custom) =>
      let h1 := with_rmgInfo rmg (with_base (readBase input) h) in
      let h2 := foldl (λ acc templ, addTemplate templ acc) h1 tmpls in
      Some (with_objectName
              (match custom with Some n => Some n | None => name end) h2)
  | None => None
  end.

End WithCollaborators.
End AObjectTypeHandler.

(** ** [CObjectClassesHandler::ObjectContainter] *)

Module ObjectContainter.
Section WithCollaborators.
Context {ext : Collaborators}.

(** The data members of [struct ObjectContainter]; a [TObjectTypeHandler] is
    the handler it points to. *)
Record t : Type := Build {
  id : Z;
  identifier : string;
  name : string;
  handlerName : string;
  base : JsonNode;
  subObjects : gmap Z AObjectTypeHandler.t;
  subIds : gmap string Z
}.

Definition with_id (v : Z) (c : t) : t :=
  Build v (identifier c) (name c) (handlerName c) (base c) (subObjects c)
    (subIds c).
Definition with_identifier (v : string) (c : t) : t :=
  Build (id c) v (name c) (handlerName c) (base c) (subObjects c) (subIds c).
Definition with_name (v : string) (c : t) : t :=
  Build (id c) (identifier c) v (handlerName c) (base c) (subObjects c)
    (subIds c).
Definition with_handlerName (v : string) (c : t) : t :=
  Build (id c) (identifier c) (name c) v (base c) (subObjects c) (subIds c).
Definition with_base (v : JsonNode) (c : t) : t :=
  Build (id c) (identifier c) (name c) (handlerName c) v (subObjects c)
    (subIds c).
Definition with_subObjects (v : gmap Z AObjectTypeHandler.t) (c : t) : t :=
  Build (id c) (identifier c) (name c) (handlerName c) (base c) v (subIds c).
Definition with_subIds (v : gmap string Z) (c : t) : t :=
  Build (id c) (identifier c) (name c) (handlerName c) (base c)
    (subObjects c) v.

(** [serialize]:
    [h & name & handlerName & base & subObjects;
     if(version >= 759) { h & identifier & subIds; }].
    [newHandler] is the handler object the loading archive creates for a
    [TObjectTypeHandler] before it loads into it. *)
Definition serialize (newHandler : AObjectTypeHandler.t) (version : Z)
  : list (Field t) :=
  [ field name with_name string_codec;
    field handlerName with_handlerName string_codec;
    field base with_base json_codec;
    field subObjects with_subObjects
      (map_codec si32_codec
         (object_codec (AObjectTypeHandler.serialize version) newHandler)) ]
  ++ (if bool_decide (version >= 759) then
        [ field identifier with_identifier string_codec;
          field subIds with_subIds (map_codec string_codec si32_codec) ]
      else []).

(** The container a loading archive of format [version] makes of the stream
    of [c] when it loads into [target]. *)
Definition loaded (newHandler : AObjectTypeHandler.t) (version : Z)
    (target c : t) : t :=
  let handlers :=
    AObjectTypeHandler.loaded version newHandler <$> subObjects c in
  if bool_decide (version >= 759) then
    Build (id target) (identifier c) (name c) (handlerName c) (base c)
      handlers (subIds c)
  else
    Build (id target) (identifier target) (name c) (handlerName c) (base c)
      handlers (subIds target).

End WithCollaborators.
End ObjectContainter.

(** ** [CObjectClassesHandler] *)

(** The failures the registry reports. *)
Inductive Error : Type :=
| DuplicateDefinition
| UnknownType
| UnknownSubtype
| MalformedConfiguration
| LegacySourceUnreadable.

(** What a call produces: a value, or a failure thrown to the caller. *)
Inductive Outcome (A : Type) : Type :=
| Ok (a : A)
| Throw (e : Error).
Arguments Ok {A} _.
Arguments Throw {A} _.

Module CObjectClassesHandler.
Section WithCollaborators.
Context {ext : Collaborators}.

(** The data members of [class CObjectClassesHandler]; an
    [ObjectContainter *] is the container it points to, a handler
    constructor is the handler object it returns, and the [multimap] of
    legacy templates is the list of its entries. *)
Record t : Type := Build {
  objects : gmap Z ObjectContainter.t;
  handlerConstructors : gmap string AObjectTypeHandler.t;
  legacyTemplates : list (Z * Z * ObjectTemplate);
  customNames : gmap Z (list string)
}.

Definition with_objects (v : gmap Z ObjectContainter.t) (r : t) : t :=
  Build v (handlerConstructors r) (legacyTemplates r) (customNames r).

(** [serialize]: [h & objects].  [newContainer] and [newHandler] are the
    objects the loading archive creates for the two pointer types. *)
Definition serialize (newContainer : ObjectContainter.t)
    (newHandler : AObjectTypeHandler.t) (version : Z) : list (Field t) :=
  [ field objects with_objects
      (map_codec si32_codec
         (object_codec (ObjectContainter.serialize newHandler version)
            newContainer)) ].

(** Modelled from the spec: the body of [CObjectClassesHandler()] is
    missing; no object is known yet, the handler constructors are the ones
    filled in during construction. *)
Definition new (constructors : gmap string AObjectTypeHandler.t) : t :=
  Build ∅ constructors [] ∅.

(** *** Member functions that change the registry

    A call runs on the registry and gives an outcome together with the
    registry it leaves behind; a thrown failure leaves the registry as it is
    at the point of the throw. *)
Definition M (A : Type) : Type := t → Outcome A * t.

Definition ret {A : Type} (a : A) : M A := λ r, (Ok a, r).
Definition throw {A : Type} (e : Error) : M A := λ r, (Throw e, r).
Definition bind {A B : Type} (c : M A) (k : A → M B) : M B :=
  λ r, match c r with
       | (Ok a, r') => k a r'
       | (Throw e, r') => (Throw e, r')
       end.
Definition this : M t := λ r, (Ok r, r).
Definition assign (r' : t) : M unit := λ _, (Ok tt, r').
(** A lookup that throws when the key is absent. *)
Definition orThrow {A : Type} (o : option A) (e : Error) : M A :=
  match o with Some a => ret a | None => throw e end.
(** A check that throws when it fails. *)
Definition require (b : bool) (e : Error) : M unit :=
  if b then ret tt else throw e.

Notation "'do' x <- c ; k" := (bind c (λ x, k))
  (at level 10, x name, c at level 100, k at level 200).
Notation "'do_' c ; k" := (bind c (λ _, k))
  (at level 10, c at level 100, k at level 200).

(** Modelled from the spec: the qualified identifier ["scope:name"] (the
    identifier normalisation of the mod handler is missing). *)
Definition qualify (scope name : string) : string :=
  scope +:+ ":" +:+ name.

(** Modelled from the spec: the bodies of the member functions are in
    [CObjectClassesHandler.cpp], which is not among the sources.  A type
    string is resolved to the numeric id of the container that carries it as
    its [identifier]. *)
Definition resolveType (typeStr : string) (r : t) : option Z :=
  (λ found, found.2.1) <$>
    list_find (λ kc, ObjectContainter.identifier kc.2 = typeStr)
      (map_to_list (objects r)).

(** Modelled from the spec: the id under which a new entry is stored, the
    explicit index when one is given and otherwise the next free id, one
    past the largest id in use and 0 in an empty map; the result is an
    [si32]. *)
Definition selectNextID {V : Type} (index : option Z) (m : gmap Z V) : Z :=
  match index with
  | Some i => to_si32 i
  | None => to_si32 (foldr (λ k next, Z.max (k + 1) next) 0 (map_to_list m).*1)
  end.

(** Modelled from the spec: [loadObject(scope, name, data)] ([index] is
    [None]) and [loadObject(scope, name, data, index)] register one
    primary-type entry; a qualified name that is registered already, or an
    id that is taken, is a duplicate definition. *)
Definition loadObject (scope name : string) (data : JsonNode)
    (index : option Z) : M unit :=
  do r <- this;
  let qualified := qualify scope name in
  do_ require (bool_decide (resolveType qualified r = None))
    DuplicateDefinition;
  let id := selectNextID index (objects r) in
  do_ require (bool_decide (objects r !! id = None)) DuplicateDefinition;
  let object :=
    ObjectContainter.Build id qualified (readName data)
      (readHandlerName data) (readBase data) ∅ ∅ in
  assign (with_objects (<[id := object]> (objects r)) r).

(** Modelled from the spec: [loadSubObject] constructs a handler with the
    constructor registered under the handler-name of the type, calls its
    [init] on the configuration merged over the base fragment of the type,
    and inserts it under the given or the next free subtype id together with
    the reverse string-id entry.  It fails when the type is unknown, when no
    constructor has that name or the configuration is malformed, and when
    the qualified identifier or the subtype id is registered already. *)
Definition loadSubObject (identifier : string) (config : JsonNode) (ID : Z)
    (subID : option Z) : M unit :=
  do r <- this;
  do obj <- orThrow (objects r !! ID) UnknownType;
  do constructed <-
    orThrow (handlerConstructors r !! ObjectContainter.handlerName obj)
      MalformedConfiguration;
  do initialised <-
    orThrow (AObjectTypeHandler.init
               (inheritNode config (ObjectContainter.base obj)) None
               constructed)
      MalformedConfiguration;
  let id := selectNextID subID (ObjectContainter.subObjects obj) in
  do_ require (bool_decide (ObjectContainter.subObjects obj !! id = None))
    DuplicateDefinition;
  do_ require (bool_decide (ObjectContainter.subIds obj !! identifier = None))
    DuplicateDefinition;
  let handler :=
    AObjectTypeHandler.setTypeName (ObjectContainter.identifier obj)
      identifier (AObjectTypeHandler.setType ID id initialised) in
  let obj' :=
    ObjectContainter.with_subIds
      (<[identifier := id]> (ObjectContainter.subIds obj))
      (ObjectContainter.with_subObjects
         (<[id := handler]> (ObjectContainter.subObjects obj)) obj) in
  assign (with_objects (<[ID := obj']> (objects r)) r).

(** Modelled from the spec: [removeSubObject] removes a handler and its
    reverse string-id entry; a pair that is not registered is left alone. *)
Definition removeSubObject (ID subID : Z) : M unit :=
  do r <- this;
  match objects r !! ID with
  | None => ret tt
  | Some obj =>
      match ObjectContainter.subObjects obj !! subID with
      | None => ret tt
      | Some handler =>
          let obj' :=
            ObjectContainter.with_subIds
              (delete (AObjectTypeHandler.subTypeName handler)
                 (ObjectContainter.subIds obj))
              (ObjectContainter.with_subObjects
                 (delete subID (ObjectContainter.subObjects obj)) obj) in
          assign (with_objects (<[ID := obj']> (objects r)) r)
      end
  end.

(** *** Queries *)

(** Modelled from the spec: the registered numeric type ids. *)
Definition knownObjects (r : t) : gset Z := dom (objects r).

(** Modelled from the spec: the registered subtype ids of a type. *)
Definition knownSubObjects (primaryID : Z) (r : t) : Outcome (gset Z) :=
  match objects r !! primaryID with
  | Some obj => Ok (dom (ObjectContainter.subObjects obj))
  | None => Throw UnknownType
  end.

(** Modelled from the spec: [getHandlerFor(si32, si32)] fails when either
    level is absent. *)
Definition getHandlerFor (type subtype : Z) (r : t)
  : Outcome AObjectTypeHandler.t :=
  match objects r !! type with
  | Some obj =>
      match ObjectContainter.subObjects obj !! subtype with
      | Some handler => Ok handler
      | None => Throw UnknownSubtype
      end
  | None => Throw UnknownType
  end.

(** Modelled from the spec: [getHandlerFor(std::string, std::string)]
    resolves both strings through the reverse maps and then looks the pair
    up. *)
Definition getHandlerForStr (type subtype : string) (r : t)
  : Outcome AObjectTypeHandler.t :=
  match resolveType type r with
  | Some id =>
      match objects r !! id with
      | Some obj =>
          match ObjectContainter.subIds obj !! subtype with
          | Some subId => getHandlerFor id subId r
          | None => Throw UnknownSubtype
          end
      | None => Throw UnknownType
      end
  | None => Throw UnknownType
  end.

(** Modelled from the spec: the handler-name of a primary type. *)
Definition getObjectHandlerName (type : Z) (r : t) : Outcome string :=
  match objects r !! type with
  | Some obj => Ok (ObjectContainter.handlerName obj)
  | None => Throw UnknownType
  end.

(** *** Reachable registries *)

(** One call of [loadObject], [loadSubObject] or [removeSubObject], whether
    it succeeds or throws. *)
Inductive step : t → t → Prop :=
| step_loadObject scope name data index r :
    step r (loadObject scope name data index r).2
| step_loadSubObject identifier config ID subID r :
    step r (loadSubObject identifier config ID subID r).2
| step_removeSubObject ID subID r :
    step r (removeSubObject ID subID r).2.

(** The registries that a sequence of such calls produces from a newly
    constructed registry. *)
Inductive reachable : t → Prop :=
| reachable_new constructors : reachable (new constructors)
| reachable_step r r' : reachable r → step r r' → reachable r'.

(** The consistency of a registry: a handler carries the ids and strings it
    is filed under and has its reverse entry, a reverse entry leads to the
    handler named by it, no two containers carry the same identifier, and a
    container knows its own id. *)
Record consistent (r : t) : Prop := MkConsistent {
  consistent_handler : ∀ T obj S h,
    objects r !! T = Some obj →
    ObjectContainter.subObjects obj !! S = Some h →
    AObjectTypeHandler.type h = T ∧
    AObjectTypeHandler.subtype h = S ∧
    AObjectTypeHandler.typeName h = ObjectContainter.identifier obj ∧
    ObjectContainter.subIds obj !! AObjectTypeHandler.subTypeName h = Some S;
  consistent_subIds : ∀ T obj q S,
    objects r !! T = Some obj →
    ObjectContainter.subIds obj !! q = Some S →
    ∃ h, ObjectContainter.subObjects obj !! S = Some h ∧
         AObjectTypeHandler.subTypeName h = q;
  consistent_identifier : ∀ T1 T2 obj1 obj2,
    objects r !! T1 = Some obj1 →
    objects r !! T2 = Some obj2 →
    ObjectContainter.identifier obj1 = ObjectContainter.identifier obj2 →
    T1 = T2;
  consistent_id : ∀ T obj,
    objects r !! T = Some obj → ObjectContainter.id obj = T
}.

End WithCollaborators.
End CObjectClassesHandler.

(** ** [CDefObjInfoHandler] (legacy definitions) *)

Section LegacyArchive.
Context {ext : Collaborators}.

(** Modelled from the spec: the missing archive writes a [ui8] as one
    unsigned item; the items of the stream carry the value and no width. *)
Definition ui8_codec : Codec Z :=
  {| put z := [IUi32 z];
     take ar :=
       match ar with IUi32 z :: ar' => Some (z, ar') | _ => None end |}.

(** Modelled from the spec: the missing archive writes an array of fixed
    size [n] as its [n] elements in order, without a length. *)
Definition array_codec {V : Type} (n : nat) (c : Codec V) : Codec (list V) :=
  {| put l := concat (put c <$> l); take ar := take_n c n ar |}.


End LegacyArchive.


Definition CGDefInfo_with_name (v : string) (d : CGDefInfo.t) : CGDefInfo.t :=
  CGDefInfo.Build v (CGDefInfo.visitMap d) (CGDefInfo.blockMap d)
    (CGDefInfo.coverageMap d) (CGDefInfo.shadowCoverage d)
    (CGDefInfo.visitDir d) (CGDefInfo.id d) (CGDefInfo.subid d)
    (CGDefInfo.terrainAllowed d) (CGDefInfo.terrainMenu d) (CGDefInfo.width d)
    (CGDefInfo.height d) (CGDefInfo.type d) (CGDefInfo.printPriority d).

Definition CGDefInfo_with_visitMap (v : list Z) (d : CGDefInfo.t)
  : CGDefInfo.t :=
  CGDefInfo.Build (CGDefInfo.name d) v (CGDefInfo.blockMap d)
    (CGDefInfo.coverageMap d) (CGDefInfo.shadowCoverage d)
    (CGDefInfo.visitDir d) (CGDefInfo.id d) (CGDefInfo.subid d)
    (CGDefInfo.terrainAllowed d) (CGDefInfo.terrainMenu d) (CGDefInfo.width d)
    (CGDefInfo.height d) (CGDefInfo.type d) (CGDefInfo.printPriority d).

Definition CGDefInfo_with_blockMap (v : list Z) (d : CGDefInfo.t)
  : CGDefInfo.t :=
  CGDefInfo.Build (CGDefInfo.name d) (CGDefInfo.visitMap d) v
    (CGDefInfo.coverageMap d) (CGDefInfo.shadowCoverage d)
    (CGDefInfo.visitDir d) (CGDefInfo.id d) (CGDefInfo.subid d)
    (CGDefInfo.terrainAllowed d) (CGDefInfo.terrainMenu d) (CGDefInfo.width d)
    (CGDefInfo.height d) (CGDefInfo.type d) (CGDefInfo.printPriority d).

Definition CGDefInfo_with_coverageMap (v : list Z) (d : CGDefInfo.t)
  : CGDefInfo.t :=
  CGDefInfo.Build (CGDefInfo.name d) (CGDefInfo.visitMap d)
    (CGDefInfo.blockMap d) v (CGDefInfo.shadowCoverage d)
    (CGDefInfo.visitDir d) (CGDefInfo.id d) (CGDefInfo.subid d)
    (CGDefInfo.terrainAllowed d) (CGDefInfo.terrainMenu d) (CGDefInfo.width d)
    (CGDefInfo.height d) (CGDefInfo.type d) (CGDefInfo.printPriority d).

Definition CGDefInfo_with_shadowCoverage (v : list Z) (d : CGDefInfo.t)
  : CGDefInfo.t :=
  CGDefInfo.Build (CGDefInfo.name d) (CGDefInfo.visitMap d)
    (CGDefInfo.blockMap d) (CGDefInfo.coverageMap d) v (CGDefInfo.visitDir d)
    (CGDefInfo.id d) (CGDefInfo.subid d) (CGDefInfo.terrainAllowed d)
    (CGDefInfo.terrainMenu d) (CGDefInfo.width d) (CGDefInfo.height d)
    (CGDefInfo.type d) (CGDefInfo.printPriority d).

Definition CGDefInfo_with_visitDir (v : Z) (d : CGDefInfo.t) : CGDefInfo.t :=
  CGDefInfo.Build (CGDefInfo.name d) (CGDefInfo.visitMap d)
    (CGDefInfo.blockMap d) (CGDefInfo.coverageMap d)
    (CGDefInfo.shadowCoverage d) v (CGDefInfo.id d) (CGDefInfo.subid d)
    (CGDefInfo.terrainAllowed d) (CGDefInfo.terrainMenu d) (CGDefInfo.width d)
    (CGDefInfo.height d) (CGDefInfo.type d) (CGDefInfo.printPriority d).

Definition CGDefInfo_with_id (v : Z) (d : CGDefInfo.t) : CGDefInfo.t :=
  CGDefInfo.Build (CGDefInfo.name d) (CGDefInfo.visitMap d)
    (CGDefInfo.blockMap d) (CGDefInfo.coverageMap d)
    (CGDefInfo.shadowCoverage d) (CGDefInfo.visitDir d) v (CGDefInfo.subid d)
    (CGDefInfo.terrainAllowed d) (CGDefInfo.terrainMenu d) (CGDefInfo.width d)
    (CGDefInfo.height d) (CGDefInfo.type d) (CGDefInfo.printPriority d).

Definition CGDefInfo_with_subid (v : Z) (d : CGDefInfo.t) : CGDefInfo.t :=
  CGDefInfo.Build (CGDefInfo.name d) (CGDefInfo.visitMap d)
    (CGDefInfo.blockMap d) (CGDefInfo.coverageMap d)
    (CGDefInfo.shadowCoverage d) (CGDefInfo.visitDir d) (CGDefInfo.id d) v
    (CGDefInfo.terrainAllowed d) (CGDefInfo.terrainMenu d) (CGDefInfo.width d)
    (CGDefInfo.height d) (CGDefInfo.type d) (CGDefInfo.printPriority d).

Definition CGDefInfo_with_terrainAllowed (v : Z) (d : CGDefInfo.t)
  : CGDefInfo.t :=
  CGDefInfo.Build (CGDefInfo.name d) (CGDefInfo.visitMap d)
    (CGDefInfo.blockMap d) (CGDefInfo.coverageMap d)
    (CGDefInfo.shadowCoverage d) (CGDefInfo.visitDir d) (CGDefInfo.id d)
    (CGDefInfo.subid d) v (CGDefInfo.terrainMenu d) (CGDefInfo.width d)
    (CGDefInfo.height d) (CGDefInfo.type d) (CGDefInfo.printPriority d).

Definition CGDefInfo_with_terrainMenu (v : Z) (d : CGDefInfo.t) : CGDefInfo.t :=
  CGDefInfo.Build (CGDefInfo.name d) (CGDefInfo.visitMap d)
    (CGDefInfo.blockMap d) (CGDefInfo.coverageMap d)
    (CGDefInfo.shadowCoverage d) (CGDefInfo.visitDir d) (CGDefInfo.id d)
    (CGDefInfo.subid d) (CGDefInfo.terrainAllowed d) v (CGDefInfo.width d)
    (CGDefInfo.height d) (CGDefInfo.type d) (CGDefInfo.printPriority d).

Definition CGDefInfo_with_width (v : Z) (d : CGDefInfo.t) : CGDefInfo.t :=
  CGDefInfo.Build (CGDefInfo.name d) (CGDefInfo.visitMap d)
    (CGDefInfo.blockMap d) (CGDefInfo.coverageMap d)
    (CGDefInfo.shadowCoverage d) (CGDefInfo.visitDir d) (CGDefInfo.id d)
    (CGDefInfo.subid d) (CGDefInfo.terrainAllowed d) (CGDefInfo.terrainMenu d)
    v (CGDefInfo.height d) (CGDefInfo.type d) (CGDefInfo.printPriority d).

Definition CGDefInfo_with_height (v : Z) (d : CGDefInfo.t) : CGDefInfo.t :=
  CGDefInfo.Build (CGDefInfo.name d) (CGDefInfo.visitMap d)
    (CGDefInfo.blockMap d) (CGDefInfo.coverageMap d)
    (CGDefInfo.shadowCoverage d) (CGDefInfo.visitDir d) (CGDefInfo.id d)
    (CGDefInfo.subid d) (CGDefInfo.terrainAllowed d) (CGDefInfo.terrainMenu d)
    (CGDefInfo.width d) v (CGDefInfo.type d) (CGDefInfo.printPriority d).

Definition CGDefInfo_with_type (v : Z) (d : CGDefInfo.t) : CGDefInfo.t :=
  CGDefInfo.Build (CGDefInfo.name d) (CGDefInfo.visitMap d)
    (CGDefInfo.blockMap d) (CGDefInfo.coverageMap d)
    (CGDefInfo.shadowCoverage d) (CGDefInfo.visitDir d) (CGDefInfo.id d)
    (CGDefInfo.subid d) (CGDefInfo.terrainAllowed d) (CGDefInfo.terrainMenu d)
    (CGDefInfo.width d) (CGDefInfo.height d) v (CGDefInfo.printPriority d).

Definition CGDefInfo_with_printPriority (v : Z) (d : CGDefInfo.t)
  : CGDefInfo.t :=
  CGDefInfo.Build (CGDefInfo.name d) (CGDefInfo.visitMap d)
    (CGDefInfo.blockMap d) (CGDefInfo.coverageMap d)
    (CGDefInfo.shadowCoverage d) (CGDefInfo.visitDir d) (CGDefInfo.id d)
    (CGDefInfo.subid d) (CGDefInfo.terrainAllowed d) (CGDefInfo.terrainMenu d)
    (CGDefInfo.width d) (CGDefInfo.height d) (CGDefInfo.type d) v.

(** [CGDefInfo::serialize]:
    [h & name & visitMap & blockMap & visitDir & id & subid &terrainAllowed
       & terrainMenu & width & height & type & printPriority & coverageMap
       & shadowCoverage]. *)
Definition CGDefInfo_serialize {ext : Collaborators} (version : Z)
  : list (Field CGDefInfo.t) :=
  [
    field CGDefInfo.name CGDefInfo_with_name string_codec;
    field CGDefInfo.visitMap CGDefInfo_with_visitMap (array_codec 6 ui8_codec);
    field CGDefInfo.blockMap CGDefInfo_with_blockMap (array_codec 6 ui8_codec);
    field CGDefInfo.visitDir CGDefInfo_with_visitDir ui8_codec;
    field CGDefInfo.id CGDefInfo_with_id si32_codec;
    field CGDefInfo.subid CGDefInfo_with_subid si32_codec;
    field CGDefInfo.terrainAllowed CGDefInfo_with_terrainAllowed si32_codec;
    field CGDefInfo.terrainMenu CGDefInfo_with_terrainMenu si32_codec;
    field CGDefInfo.width CGDefInfo_with_width si32_codec;
    field CGDefInfo.height CGDefInfo_with_height si32_codec;
    field CGDefInfo.type CGDefInfo_with_type si32_codec;
    field CGDefInfo.printPriority CGDefInfo_with_printPriority si32_codec;
    field CGDefInfo.coverageMap CGDefInfo_with_coverageMap
      (array_codec 6 ui8_codec);
    field CGDefInfo.shadowCoverage CGDefInfo_with_shadowCoverage
      (array_codec 6 ui8_codec) ].

Module CDefObjInfoHandler.
Section WithCollaborators.
Context {ext : Collaborators}.

(** The data members of [class CDefObjInfoHandler]; a [bmap] is a map and a
    [ConstTransitivePtr<CGDefInfo>] is the entry it points to. *)
Record t : Type := Build {
  gobjs : gmap Z (gmap Z CGDefInfo.t);
  castles : gmap Z CGDefInfo.t
}.

Definition with_gobjs (v : gmap Z (gmap Z CGDefInfo.t)) (o : t) : t :=
  Build v (castles o).
Definition with_castles (v : gmap Z CGDefInfo.t) (o : t) : t :=
  Build (gobjs o) v.

(** [serialize]: [h & gobjs; h & castles;].  [newInfo] is the entry the
    loading archive creates for a pointer before it loads into it. *)
Definition serialize (newInfo : CGDefInfo.t) (version : Z) : list (Field t) :=
  [ field gobjs with_gobjs
      (map_codec si32_codec
         (map_codec si32_codec
            (object_codec (CGDefInfo_serialize version) newInfo)));
    field castles with_castles
      (map_codec si32_codec
         (object_codec (CGDefInfo_serialize version) newInfo)) ].


End WithCollaborators.
End CDefObjInfoHandler.

(** ** A small content set

    Concrete collaborators and the registry of a single type, "dwelling"
    with the handler-name "creatureGenerator" under the id 5, and two of its
    subtypes: a template is its terrain mask, a configuration tree lists the
    fields the readers extract. *)

Module Sample.

Record Config : Type := MkConfig {
  cfgName : string;
  cfgHandler : string;
  cfgTemplates : list Z;
  cfgWellFormed : bool
}.

Definition collaborators : Collaborators := {|
  JsonNode := Config;
  ObjectTemplate := Z;
  canBePlacedAt mask terrain := Z.testbit mask terrain;
  readName := cfgName;
  readHandlerName := cfgHandler;
  readBase cfg := cfg;
  readTypeData cfg :=
    if cfgWellFormed cfg then Some (RandomMapInfo.new, cfgTemplates cfg, None)
    else None;
  inheritNode cfg _ := cfg
|}.

Definition dwelling : Config := MkConfig "dwelling" "creatureGenerator" [] true.
Definition elf : Config := MkConfig "" "" [1; 6; 4] true.
Definition orc : Config := MkConfig "" "" [2] true.

(** The handler object a constructor returns, and the objects a loading
    archive creates. *)
Definition newHandler : @AObjectTypeHandler.t collaborators :=
  AObjectTypeHandler.Build (ext := collaborators)
    RandomMapInfo.new None dwelling [] "" "" (-1) (-1).

Definition newContainer : @ObjectContainter.t collaborators :=
  ObjectContainter.Build (ext := collaborators) 0 "" "" "" dwelling ∅ ∅.

Definition registry0 : @CObjectClassesHandler.t collaborators :=
  CObjectClassesHandler.new {[ "creatureGenerator"%string := newHandler ]}.

Definition registry1 : @CObjectClassesHandler.t collaborators :=
  (CObjectClassesHandler.loadObject (ext := collaborators)
     "core" "dwelling" dwelling (Some 5) registry0).2.

Definition registry2 : @CObjectClassesHandler.t collaborators :=
  (CObjectClassesHandler.loadSubObject (ext := collaborators)
     "core:elfDwelling" elf 5 None registry1).2.

Definition registry3 : @CObjectClassesHandler.t collaborators :=
  (CObjectClassesHandler.loadSubObject (ext := collaborators)
     "core:orcDwelling" orc 5 (Some 3) registry2).2.

(** The container of the type after both subtypes are loaded. *)
Definition dwellingObject : @ObjectContainter.t collaborators :=
  default newContainer (CObjectClassesHandler.objects registry3 !! 5).

End Sample.

(** ** A small legacy table

    Two legacy entries, one of them a castle, and the tables that hold
    them. *)

Module LegacySample.

Definition tree : CGDefInfo.t :=
  CGDefInfo.Build "AVLtree1.def" [0; 0; 0; 0; 0; 0]
    [255; 255; 255; 255; 255; 127] [0; 0; 0; 0; 0; 128] [0; 0; 0; 0; 0; 192]
    0 199 2 255 1 1 1 0 0.

Definition castle : CGDefInfo.t :=
  CGDefInfo.Build "AVCcasx0.def" [0; 0; 0; 0; 0; 32]
    [255; 255; 255; 255; 143; 7] [0; 0; 0; 0; 112; 248]
    [0; 0; 0; 0; 240; 252] 255 98 0 511 511 6 6 1 0.

Definition handler : CDefObjInfoHandler.t :=
  CDefObjInfoHandler.Build
    {[ 199 := {[ 2 := tree ]}; 98 := {[ 0 := castle ]} ]}
    {[ 0 := castle ]}.

End LegacySample.

(** * Properties *)

(** ** Capability descriptor and orderings *)

(** C7. A default-constructed [IObjectInfo] reports zero guards and grants
    nothing: [minGuards()] and [maxGuards()] return an army structure whose
    four strengths are 0, and each of the ten capability predicates returns
    [false]. *)
Theorem IObjectInfo_default_no_guards_no_capabilities :
  let info := IObjectInfoBase_new in
  let zero (a : CArmyStructure.t) :=
    CArmyStructure.totalStrength a = 0 ∧
    CArmyStructure.shootersStrength a = 0 ∧
    CArmyStructure.flyersStrength a = 0 ∧
    CArmyStructure.walkersStrength a = 0 in
  zero (minGuards info) ∧ zero (maxGuards info) ∧
  givesResources info = false ∧
  givesExperience info = false ∧
  givesMana info = false ∧
  givesMovement info = false ∧
  givesPrimarySkills info = false ∧
  givesSecondarySkills info = false ∧
  givesArtifacts info = false ∧
  givesCreatures info = false ∧
  givesSpells info = false ∧
  givesBonuses info = false.
Proof. cbn. repeat split. Qed.

(** C8. Army structures are ordered by total strength: [a < b] holds exactly
    when the total strength of [a] is below that of [b], whatever the
    shooters, flyers and walkers strengths of either are. *)
Theorem CArmyStructure_lt_by_totalStrength (a b : CArmyStructure.t) :
  (CArmyStructure.lt a b = true ↔
   CArmyStructure.totalStrength a < CArmyStructure.totalStrength b) ∧
  (∀ s f w s' f' w',
     CArmyStructure.lt
       (CArmyStructure.Build (CArmyStructure.totalStrength a) s f w)
       (CArmyStructure.Build (CArmyStructure.totalStrength b) s' f' w')
     = CArmyStructure.lt a b).
Proof.
  split.
  - unfold CArmyStructure.lt. apply Z.ltb_lt.
  - intros. reflexivity.
Qed.

(** The two branches of [CGDefInfo::operator<]. *)
Lemma CGDefInfo_lt_branches (a b : CGDefInfo.t) :
  CGDefInfo.lt a b
  = if decide (CGDefInfo.id a = CGDefInfo.id b)
    then bool_decide (CGDefInfo.subid a < CGDefInfo.subid b)
    else bool_decide (CGDefInfo.id a < CGDefInfo.id b).
Proof.
  unfold CGDefInfo.lt.
  destruct (Z.eqb_spec (CGDefInfo.id a) (CGDefInfo.id b)) as [Heq | Hne];
    cbn; case_decide; try done;
    match goal with
    | |- (?x <? ?y) = _ => destruct (Z.ltb_spec x y)
    end;
    by rewrite ?bool_decide_true, ?bool_decide_false by lia.
Qed.

(** C9. Legacy definition entries are ordered by [(id, subid)]: [a < b]
    holds exactly when [a.id < b.id], or [a.id = b.id] and
    [a.subid < b.subid]. *)
Theorem CGDefInfo_lt_lexicographic (a b : CGDefInfo.t) :
  CGDefInfo.lt a b = true ↔
  CGDefInfo.id a < CGDefInfo.id b ∨
  (CGDefInfo.id a = CGDefInfo.id b ∧ CGDefInfo.subid a < CGDefInfo.subid b).
Proof.
  rewrite CGDefInfo_lt_branches.
  case_decide; rewrite bool_decide_eq_true; lia.
Qed.

(** X1. [operator <] of [CArmyStructure] is a strict weak ordering: it is
    irreflexive, asymmetric and transitive, and being unordered either way
    (having the same total strength) is transitive. *)
Theorem CArmyStructure_lt_strict_weak_order :
  (∀ a, CArmyStructure.lt a a = false) ∧
  (∀ a b, CArmyStructure.lt a b = true → CArmyStructure.lt b a = false) ∧
  (∀ a b c, CArmyStructure.lt a b = true → CArmyStructure.lt b c = true →
            CArmyStructure.lt a c = true) ∧
  (∀ a b c,
     CArmyStructure.lt a b = false → CArmyStructure.lt b a = false →
     CArmyStructure.lt b c = false → CArmyStructure.lt c b = false →
     CArmyStructure.lt a c = false ∧ CArmyStructure.lt c a = false).
Proof.
  unfold CArmyStructure.lt. split_and!; intros *.
  - apply Z.ltb_irrefl.
  - rewrite Z.ltb_lt, Z.ltb_ge. lia.
  - rewrite !Z.ltb_lt. lia.
  - rewrite !Z.ltb_ge. lia.
Qed.

(** X2. [operator<] of [CGDefInfo] is a strict total order on the pairs
    [(id, subid)]: it is irreflexive, asymmetric and transitive, and two
    entries are ordered one way or the other unless they have the same [id]
    and the same [subid]. *)
Theorem CGDefInfo_lt_strict_total_order :
  (∀ a, CGDefInfo.lt a a = false) ∧
  (∀ a b, CGDefInfo.lt a b = true → CGDefInfo.lt b a = false) ∧
  (∀ a b c, CGDefInfo.lt a b = true → CGDefInfo.lt b c = true →
            CGDefInfo.lt a c = true) ∧
  (∀ a b, CGDefInfo.lt a b = true ∨ CGDefInfo.lt b a = true ∨
          (CGDefInfo.id a = CGDefInfo.id b ∧
           CGDefInfo.subid a = CGDefInfo.subid b)).
Proof.
  split_and!; intros *; rewrite !CGDefInfo_lt_branches;
    repeat case_decide;
    rewrite ?bool_decide_eq_true, ?bool_decide_eq_false; lia.
Qed.

(** ** Templates of a handler *)

Section Templates.
Context {ext : Collaborators}.

(** The selection loop with an arbitrary start value: what it has collected
    so far, followed by the accepted templates of the rest. *)
Lemma select_loop_filter (terrain : Z) (l acc : list ObjectTemplate) :
  foldl (λ filtered templ,
           if canBePlacedAt templ terrain then filtered ++ [templ]
           else filtered) acc l
  = acc ++ filter (λ templ, canBePlacedAt templ terrain = true) l.
Proof.
  revert acc. induction l as [| x l IH]; intros acc; cbn [foldl].
  - by rewrite filter_nil, app_nil_r.
  - rewrite IH. destruct (canBePlacedAt x terrain) eqn:Hx.
    + rewrite filter_cons_True by done. by rewrite <- app_assoc.
    + rewrite filter_cons_False; [done |]. by rewrite Hx.
Qed.

(** C6. [getTemplates(t)] is a subsequence of [getTemplates()]: it consists
    of exactly the templates whose terrain mask accepts [t], in the order
    they have in [getTemplates()]. *)
Theorem getTemplates_terrain_subsequence
    (h : AObjectTypeHandler.t) (terrain : Z) :
  let all := AObjectTypeHandler.getTemplates h in
  let selected := AObjectTypeHandler.getTemplatesOn terrain h in
  selected = filter (λ templ, canBePlacedAt templ terrain = true) all ∧
  selected `sublist_of` all ∧
  (∀ templ, templ ∈ selected ↔
            templ ∈ all ∧ canBePlacedAt templ terrain = true).
Proof.
  cbn. unfold AObjectTypeHandler.getTemplatesOn.
  rewrite select_loop_filter. cbn. split; [done |]. split.
  - apply sublist_filter.
  - intros templ. rewrite list_elem_of_filter. tauto.
Qed.

End Templates.

(** ** The archive *)

Section ArchiveFacts.
Context {ext : Collaborators}.

Lemma si32_codec_ok : codec_ok si32_codec id.
Proof. by intros v rest. Qed.

Lemma ui32_codec_ok : codec_ok ui32_codec id.
Proof. by intros v rest. Qed.

Lemma string_codec_ok : codec_ok string_codec id.
Proof. by intros v rest. Qed.

Lemma json_codec_ok : codec_ok json_codec id.
Proof. by intros v rest. Qed.

Lemma template_codec_ok : codec_ok template_codec id.
Proof. by intros v rest. Qed.

Lemma pair_codec_ok {A B : Type} (ca : Codec A) (cb : Codec B) na nb :
  codec_ok ca na → codec_ok cb nb →
  codec_ok (pair_codec ca cb) (prod_map na nb).
Proof.
  intros Ha Hb [a b] rest. cbn.
  by rewrite <- app_assoc, Ha, Hb.
Qed.

Lemma take_n_ok {V : Type} (c : Codec V) norm (l : list V) rest :
  codec_ok c norm →
  take_n c (length l) (concat (put c <$> l) ++ rest) = Some (norm <$> l, rest).
Proof.
  intros Hc. induction l as [| v l IH]; cbn; [done |].
  by rewrite <- app_assoc, Hc, IH.
Qed.

Lemma vector_codec_ok {V : Type} (c : Codec V) norm :
  codec_ok c norm → codec_ok (vector_codec c) (fmap norm).
Proof. intros Hc l rest. cbn. by apply take_n_ok. Qed.

Lemma optional_codec_ok {V : Type} (c : Codec V) norm :
  codec_ok c norm → codec_ok (optional_codec c) (fmap norm).
Proof.
  intros Hc [v |] rest; cbn; [| done]. by rewrite Hc.
Qed.

Lemma map_codec_ok {K : Type} `{Countable K} {V : Type}
    (ck : Codec K) (cv : Codec V) norm :
  codec_ok ck id → codec_ok cv norm →
  codec_ok (map_codec ck cv) (fmap norm).
Proof.
  intros Hk Hv m rest. unfold map_codec. cbn [put take app].
  rewrite <- length_map_to_list.
  rewrite (take_n_ok _ (prod_map id norm)) by by apply pair_codec_ok.
  by rewrite list_to_map_fmap, list_to_map_to_list.
Qed.

(** Loading one member from a stream that starts with what its codec has
    written. *)
Lemma load_step {O V : Type} (get : O → V) set (c : Codec V) norm
    (fs : list (Field O)) (target : O) (v : V) (rest : list Item) :
  codec_ok c norm →
  load (field get set c :: fs) target (put c v ++ rest)
  = load fs (set (norm v) target) rest.
Proof. intros Hc. cbn. by rewrite Hc. Qed.

End ArchiveFacts.

(** Finds the law of a codec built from the primitive ones and from the
    laws among the hypotheses. *)
Ltac codec_law :=
  eauto using si32_codec_ok, ui32_codec_ok, string_codec_ok, json_codec_ok,
    template_codec_ok, pair_codec_ok, vector_codec_ok, optional_codec_ok,
    map_codec_ok.

(** Runs a loading archive over the stream a saving archive has produced
    from the same list of members. *)
Ltac load_members :=
  cbn [save app];
  repeat rewrite <- app_assoc;
  cbn [app];
  repeat (erewrite load_step by codec_law);
  cbn [load];
  rewrite ?list_fmap_id, ?option_fmap_id, ?map_fmap_id;
  unfold id.

Section SerializeFacts.
Context {ext : Collaborators}.

Lemma RandomMapInfo_codec_ok (version : Z) (blank : RandomMapInfo.t) :
  codec_ok (object_codec (RandomMapInfo_serialize version) blank) id.
Proof.
  intros [v m z r] rest. unfold object_codec, RandomMapInfo_serialize. cbn.
  done.
Qed.

End SerializeFacts.

Section RoundTrip.
Context {ext : Collaborators}.

(** X3. [RandomMapInfo()] sets the four fields to 0, and
    [RandomMapInfo::serialize] hands [value], [mapLimit], [zoneLimit] and
    [rarity] to the archive, in this order and in every format version:
    loading the stream gives the saved value back, whatever the object
    loaded into held. *)
Theorem RandomMapInfo_serialize_all_fields
    (version : Z) (info blank : RandomMapInfo.t) (rest : list Item) :
  RandomMapInfo.new = RandomMapInfo.Build 0 0 0 0 ∧
  save (RandomMapInfo_serialize version) info
  = [IUi32 (RandomMapInfo.value info); IUi32 (RandomMapInfo.mapLimit info);
     IUi32 (RandomMapInfo.zoneLimit info);
     IUi32 (RandomMapInfo.rarity info)] ∧
  load (RandomMapInfo_serialize version) blank
    (save (RandomMapInfo_serialize version) info ++ rest)
  = Some (info, rest).
Proof.
  split_and!; [done .. |].
  apply (RandomMapInfo_codec_ok version blank info rest).
Qed.

(** The members every version of [AObjectTypeHandler::serialize] writes. *)
Lemma handler_save (version : Z) (h : AObjectTypeHandler.t) :
  save (AObjectTypeHandler.serialize version) h
  = [ISi32 (AObjectTypeHandler.type h); ISi32 (AObjectTypeHandler.subtype h)]
    ++ put (vector_codec template_codec) (AObjectTypeHandler.templates h)
    ++ save (RandomMapInfo_serialize version) (AObjectTypeHandler.rmgInfo h)
    ++ put (optional_codec string_codec) (AObjectTypeHandler.objectName h)
    ++ (if bool_decide (version >= 759) then
          [IString (AObjectTypeHandler.typeName h);
           IString (AObjectTypeHandler.subTypeName h)]
        else []).
Proof.
  unfold AObjectTypeHandler.serialize.
  case_bool_decide; cbn [save app]; by rewrite ?app_nil_r.
Qed.

Lemma handler_load_save (version : Z) (target h : AObjectTypeHandler.t)
    (rest : list Item) :
  load (AObjectTypeHandler.serialize version) target
    (save (AObjectTypeHandler.serialize version) h ++ rest)
  = Some (AObjectTypeHandler.loaded version target h, rest).
Proof.
  pose proof (RandomMapInfo_codec_ok version RandomMapInfo.new) as Hrmg.
  unfold AObjectTypeHandler.serialize, AObjectTypeHandler.loaded.
  case_bool_decide; load_members; by destruct h, target.
Qed.

Lemma handler_codec_ok (version : Z) (newHandler : AObjectTypeHandler.t) :
  codec_ok (object_codec (AObjectTypeHandler.serialize version) newHandler)
    (AObjectTypeHandler.loaded version newHandler).
Proof. intros h rest. apply handler_load_save. Qed.

(** The members every version of [ObjectContainter::serialize] writes. *)
Lemma container_save (newHandler : AObjectTypeHandler.t) (version : Z)
    (c : ObjectContainter.t) :
  save (ObjectContainter.serialize newHandler version) c
  = [IString (ObjectContainter.name c);
     IString (ObjectContainter.handlerName c);
     IJson (ObjectContainter.base c)]
    ++ put (map_codec si32_codec
              (object_codec (AObjectTypeHandler.serialize version) newHandler))
         (ObjectContainter.subObjects c)
    ++ (if bool_decide (version >= 759) then
          IString (ObjectContainter.identifier c)
          :: put (map_codec string_codec si32_codec) (ObjectContainter.subIds c)
        else []).
Proof.
  unfold ObjectContainter.serialize.
  case_bool_decide; cbn [save app]; by rewrite ?app_nil_r.
Qed.

Lemma container_load_save (newHandler : AObjectTypeHandler.t) (version : Z)
    (target c : ObjectContainter.t) (rest : list Item) :
  load (ObjectContainter.serialize newHandler version) target
    (save (ObjectContainter.serialize newHandler version) c ++ rest)
  = Some (ObjectContainter.loaded newHandler version target c, rest).
Proof.
  pose proof (handler_codec_ok version newHandler) as Hh.
  unfold ObjectContainter.serialize, ObjectContainter.loaded.
  case_bool_decide; load_members.
  - by destruct c, target.
  - by destruct c, target.
Qed.

Lemma container_codec_ok (newContainer : ObjectContainter.t)
    (newHandler : AObjectTypeHandler.t) (version : Z) :
  codec_ok
    (object_codec (ObjectContainter.serialize newHandler version) newContainer)
    (ObjectContainter.loaded newHandler version newContainer).
Proof. intros c rest. apply container_load_save. Qed.

Lemma registry_load_save (newContainer : ObjectContainter.t)
    (newHandler : AObjectTypeHandler.t) (version : Z)
    (target r : CObjectClassesHandler.t) (rest : list Item) :
  load (CObjectClassesHandler.serialize newContainer newHandler version) target
    (save (CObjectClassesHandler.serialize newContainer newHandler version) r
     ++ rest)
  = Some (CObjectClassesHandler.with_objects
            (ObjectContainter.loaded newHandler version newContainer
               <$> CObjectClassesHandler.objects r) target,
          rest).
Proof.
  pose proof (container_codec_ok newContainer newHandler version) as Hc.
  unfold CObjectClassesHandler.serialize. by load_members.
Qed.

(** X4. [AObjectTypeHandler::serialize] never hands the [base] template
    description to the archive: the stream of a handler does not depend on
    its [base], and loading leaves the [base] of the object loaded into as
    it is. *)
Theorem handler_base_not_serialized (version : Z) :
  (∀ h b,
     save (AObjectTypeHandler.serialize version)
       (AObjectTypeHandler.with_base b h)
     = save (AObjectTypeHandler.serialize version) h) ∧
  (∀ target ar h' rest,
     load (AObjectTypeHandler.serialize version) target ar = Some (h', rest) →
     AObjectTypeHandler.base h' = AObjectTypeHandler.base target).
Proof.
  split.
  - intros h b. by rewrite !handler_save.
  - intros target ar h' rest. unfold AObjectTypeHandler.serialize.
    case_bool_decide; cbn [load app];
      repeat (match goal with
              | |- context [match take ?c ?a with _ => _ end] =>
                  destruct (take c a) as [[? ?] |]; [| done]
              end);
      intros [= <- _]; done.
Qed.

(** Loading a container never assigns its [id]. *)
Lemma container_load_id (newHandler : AObjectTypeHandler.t) (version : Z)
    (target c' : ObjectContainter.t) (ar rest : list Item) :
  load (ObjectContainter.serialize newHandler version) target ar
  = Some (c', rest) →
  ObjectContainter.id c' = ObjectContainter.id target.
Proof.
  unfold ObjectContainter.serialize.
  case_bool_decide; cbn [load app];
    repeat (match goal with
            | |- context [match take ?c ?a with _ => _ end] =>
                destruct (take c a) as [[? ?] |]; [| done]
            end);
    intros [= <- _]; done.
Qed.

End RoundTrip.

Section VersionGate.
Context {ext : Collaborators}.

(** C5. The string identifiers are gated at the fixed format version 759.
    From that version on the stream of a handler ends with [typeName] and
    [subTypeName] and the stream of a container ends with its [identifier]
    and its [subIds] map, and loading restores them; below it none of them
    is written or read, so a loaded object keeps the ones it had.  [type],
    [subtype], [templates], [rmgInfo] and [objectName] of a handler and
    [name], [handlerName], [base] and [subObjects] of a container are
    written and read in every version. *)
Theorem serialize_string_ids_version_gated
    (version : Z) (newHandler h hTarget : AObjectTypeHandler.t)
    (c cTarget : ObjectContainter.t) (rest : list Item) :
  let hs := AObjectTypeHandler.serialize version in
  let cs := ObjectContainter.serialize newHandler version in
  let handlerAlways :=
    [ISi32 (AObjectTypeHandler.type h);
     ISi32 (AObjectTypeHandler.subtype h)]
    ++ put (vector_codec template_codec) (AObjectTypeHandler.templates h)
    ++ [IUi32 (RandomMapInfo.value (AObjectTypeHandler.rmgInfo h));
        IUi32 (RandomMapInfo.mapLimit (AObjectTypeHandler.rmgInfo h));
        IUi32 (RandomMapInfo.zoneLimit (AObjectTypeHandler.rmgInfo h));
        IUi32 (RandomMapInfo.rarity (AObjectTypeHandler.rmgInfo h))]
    ++ put (optional_codec string_codec) (AObjectTypeHandler.objectName h) in
  let containerAlways :=
    [IString (ObjectContainter.name c);
     IString (ObjectContainter.handlerName c);
     IJson (ObjectContainter.base c)]
    ++ put (map_codec si32_codec (object_codec hs newHandler))
         (ObjectContainter.subObjects c) in
  let handlers :=
    AObjectTypeHandler.loaded version newHandler
      <$> ObjectContainter.subObjects c in
  (STRING_ID_VERSION ≤ version →
     save hs h
     = handlerAlways ++ [IString (AObjectTypeHandler.typeName h);
                         IString (AObjectTypeHandler.subTypeName h)] ∧
     load hs hTarget (save hs h ++ rest)
     = Some (AObjectTypeHandler.Build
               (AObjectTypeHandler.rmgInfo h) (AObjectTypeHandler.objectName h)
               (AObjectTypeHandler.base hTarget)
               (AObjectTypeHandler.templates h)
               (AObjectTypeHandler.typeName h)
               (AObjectTypeHandler.subTypeName h)
               (AObjectTypeHandler.type h) (AObjectTypeHandler.subtype h),
             rest) ∧
     save cs c
     = containerAlways
       ++ IString (ObjectContainter.identifier c)
          :: put (map_codec string_codec si32_codec)
               (ObjectContainter.subIds c) ∧
     load cs cTarget (save cs c ++ rest)
     = Some (ObjectContainter.Build
               (ObjectContainter.id cTarget) (ObjectContainter.identifier c)
               (ObjectContainter.name c) (ObjectContainter.handlerName c)
               (ObjectContainter.base c) handlers (ObjectContainter.subIds c),
             rest)) ∧
  (version < STRING_ID_VERSION →
     save hs h = handlerAlways ∧
     load hs hTarget (save hs h ++ rest)
     = Some (AObjectTypeHandler.Build
               (AObjectTypeHandler.rmgInfo h) (AObjectTypeHandler.objectName h)
               (AObjectTypeHandler.base hTarget)
               (AObjectTypeHandler.templates h)
               (AObjectTypeHandler.typeName hTarget)
               (AObjectTypeHandler.subTypeName hTarget)
               (AObjectTypeHandler.type h) (AObjectTypeHandler.subtype h),
             rest) ∧
     save cs c = containerAlways ∧
     load cs cTarget (save cs c ++ rest)
     = Some (ObjectContainter.Build
               (ObjectContainter.id cTarget)
               (ObjectContainter.identifier cTarget)
               (ObjectContainter.name c) (ObjectContainter.handlerName c)
               (ObjectContainter.base c) handlers
               (ObjectContainter.subIds cTarget),
             rest)).
Proof.
  intros hs cs handlerAlways containerAlways handlers.
  subst hs cs handlerAlways containerAlways handlers.
  unfold STRING_ID_VERSION.
  rewrite handler_load_save, container_load_save, handler_save,
    container_save.
  unfold AObjectTypeHandler.loaded at 1 3, ObjectContainter.loaded.
  split; intros Hv.
  - rewrite !bool_decide_true by lia.
    rewrite <- !app_assoc. by destruct h.
  - rewrite !bool_decide_false by lia.
    rewrite !app_nil_r. by destruct h.
Qed.

(** C10. [ObjectContainter::serialize] never hands [id] to the archive: the
    stream of a container does not depend on its [id], loading leaves the
    [id] of the object loaded into as it is, and after a round trip of the
    registry the containers sit under the keys they had, each with the [id]
    of the object the archive created for it and not the [id] that was
    stored in the saved container. *)
Theorem container_id_not_serialized
    (newContainer : ObjectContainter.t) (newHandler : AObjectTypeHandler.t)
    (version : Z) :
  let cs := ObjectContainter.serialize newHandler version in
  let rs := CObjectClassesHandler.serialize newContainer newHandler version in
  (∀ c i, save cs (ObjectContainter.with_id i c) = save cs c) ∧
  (∀ target ar c' rest,
     load cs target ar = Some (c', rest) →
     ObjectContainter.id c' = ObjectContainter.id target) ∧
  (∀ r ids,
     save rs (CObjectClassesHandler.with_objects
                ((λ c, ObjectContainter.with_id (ids c) c)
                   <$> CObjectClassesHandler.objects r) r)
     = save rs r) ∧
  (∀ r target rest,
     ∃ r',
       load rs target (save rs r ++ rest) = Some (r', rest) ∧
       CObjectClassesHandler.knownObjects r'
       = CObjectClassesHandler.knownObjects r ∧
       ∀ k c',
         CObjectClassesHandler.objects r' !! k = Some c' →
         ObjectContainter.id c' = ObjectContainter.id newContainer).
Proof.
  intros cs rs. subst cs rs.
  assert (Hsave : ∀ c i,
            save (ObjectContainter.serialize newHandler version)
              (ObjectContainter.with_id i c)
            = save (ObjectContainter.serialize newHandler version) c).
  { intros c i. by rewrite !container_save. }
  split; [exact Hsave |]. split; [| split].
  - intros target ar c' rest. apply container_load_id.
  - intros r ids. unfold CObjectClassesHandler.serialize.
    cbn [save put map_codec CObjectClassesHandler.objects
           CObjectClassesHandler.with_objects].
    rewrite map_size_fmap, map_to_list_fmap, <- list_fmap_compose.
    do 3 f_equal. apply list_fmap_ext. intros _ [k c] _.
    cbn. f_equal. apply Hsave.
  - intros r target rest. eexists. split; [apply registry_load_save |].
    split.
    + unfold CObjectClassesHandler.knownObjects. cbn. apply dom_fmap_L.
    + intros k c'. cbn. rewrite lookup_fmap.
      destruct (CObjectClassesHandler.objects r !! k) as [c |] eqn:Hk;
        cbn; [| done].
      intros [= <-]. unfold ObjectContainter.loaded. by case_bool_decide.
Qed.

End VersionGate.

(** ** Round trips of the registry *)

Section RegistryRoundTrip.
Context {ext : Collaborators}.

(** Saving a loaded handler writes what was loaded. *)
Lemma handler_save_loaded (version : Z) (target h : AObjectTypeHandler.t) :
  save (AObjectTypeHandler.serialize version)
    (AObjectTypeHandler.loaded version target h)
  = save (AObjectTypeHandler.serialize version) h.
Proof.
  rewrite !handler_save. unfold AObjectTypeHandler.loaded.
  by case_bool_decide.
Qed.

(** The stream of a map whose values are replaced by values with the same
    stream. *)
Lemma map_codec_put_fmap {K : Type} `{Countable K} {V : Type}
    (ck : Codec K) (cv : Codec V) (f : V → V) (m : gmap K V) :
  (∀ v, put cv (f v) = put cv v) →
  put (map_codec ck cv) (f <$> m) = put (map_codec ck cv) m.
Proof.
  intros Hf. unfold map_codec. cbn [put].
  rewrite map_size_fmap, map_to_list_fmap, <- list_fmap_compose.
  do 2 f_equal. apply list_fmap_ext. intros _ [k v] _. cbn.
  by rewrite Hf.
Qed.

Lemma container_save_loaded (newHandler : AObjectTypeHandler.t)
    (version : Z) (target c : ObjectContainter.t) :
  save (ObjectContainter.serialize newHandler version)
    (ObjectContainter.loaded newHandler version target c)
  = save (ObjectContainter.serialize newHandler version) c.
Proof.
  rewrite !container_save. unfold ObjectContainter.loaded.
  case_bool_decide;
    cbn [ObjectContainter.name ObjectContainter.handlerName
           ObjectContainter.base ObjectContainter.subObjects
           ObjectContainter.identifier ObjectContainter.subIds];
    by rewrite (map_codec_put_fmap si32_codec _
                  (AObjectTypeHandler.loaded version newHandler))
      by apply handler_save_loaded.
Qed.

(** X5. [CObjectClassesHandler::serialize] hands only [objects] to the
    archive: the stream of a registry does not depend on its handler
    constructors, legacy templates and custom names, and loading leaves
    these three members of the registry loaded into as they are. *)
Theorem registry_only_objects_serialized
    (newContainer : ObjectContainter.t) (newHandler : AObjectTypeHandler.t)
    (version : Z) :
  let rs := CObjectClassesHandler.serialize newContainer newHandler version in
  (∀ r constructors templates names,
     save rs (CObjectClassesHandler.Build (CObjectClassesHandler.objects r)
                constructors templates names)
     = save rs r) ∧
  (∀ target ar r' rest,
     load rs target ar = Some (r', rest) →
     CObjectClassesHandler.handlerConstructors r'
     = CObjectClassesHandler.handlerConstructors target ∧
     CObjectClassesHandler.legacyTemplates r'
     = CObjectClassesHandler.legacyTemplates target ∧
     CObjectClassesHandler.customNames r'
     = CObjectClassesHandler.customNames target).
Proof.
  cbn zeta. split.
  - intros r constructors templates names. reflexivity.
  - intros target ar r' rest. unfold CObjectClassesHandler.serialize.
    cbn [load].
    match goal with
    | |- context [match take ?c ?a with _ => _ end] =>
        destruct (take c a) as [[? ?] |]; [| done]
    end.
    by intros [= <- _].
Qed.

(** X6. Saving a registry and loading the stream back, in any format
    version, gives a registry with the same type ids and, under each, the
    same subtype ids; a loaded container has the saved [name],
    [handlerName] and [base], a loaded handler the saved [type], [subtype],
    [templates], [rmgInfo] and [objectName]; from version 759 on the
    [identifier] and [subIds] of a container and the [typeName] and
    [subTypeName] of a handler are the saved ones as well. *)
Theorem registry_round_trip_contents
    (newContainer : ObjectContainter.t) (newHandler : AObjectTypeHandler.t)
    (version : Z) (target r : CObjectClassesHandler.t) (rest : list Item) :
  let rs := CObjectClassesHandler.serialize newContainer newHandler version in
  ∃ r',
    load rs target (save rs r ++ rest) = Some (r', rest) ∧
    dom (CObjectClassesHandler.objects r')
    = dom (CObjectClassesHandler.objects r) ∧
    ∀ k c,
      CObjectClassesHandler.objects r !! k = Some c →
      ∃ c',
        CObjectClassesHandler.objects r' !! k = Some c' ∧
        ObjectContainter.name c' = ObjectContainter.name c ∧
        ObjectContainter.handlerName c' = ObjectContainter.handlerName c ∧
        ObjectContainter.base c' = ObjectContainter.base c ∧
        dom (ObjectContainter.subObjects c')
        = dom (ObjectContainter.subObjects c) ∧
        (STRING_ID_VERSION ≤ version →
         ObjectContainter.identifier c' = ObjectContainter.identifier c ∧
         ObjectContainter.subIds c' = ObjectContainter.subIds c) ∧
        ∀ s h,
          ObjectContainter.subObjects c !! s = Some h →
          ∃ h',
            ObjectContainter.subObjects c' !! s = Some h' ∧
            AObjectTypeHandler.type h' = AObjectTypeHandler.type h ∧
            AObjectTypeHandler.subtype h' = AObjectTypeHandler.subtype h ∧
            AObjectTypeHandler.templates h' = AObjectTypeHandler.templates h ∧
            AObjectTypeHandler.rmgInfo h' = AObjectTypeHandler.rmgInfo h ∧
            AObjectTypeHandler.objectName h'
            = AObjectTypeHandler.objectName h ∧
            (STRING_ID_VERSION ≤ version →
             AObjectTypeHandler.typeName h' = AObjectTypeHandler.typeName h ∧
             AObjectTypeHandler.subTypeName h'
             = AObjectTypeHandler.subTypeName h).
Proof.
  cbn zeta. unfold STRING_ID_VERSION.
  eexists. split; [apply registry_load_save |]. cbn. split.
  - apply dom_fmap_L.
  - intros k c Hc. rewrite lookup_fmap, Hc. cbn. eexists. split; [done |].
    unfold ObjectContainter.loaded.
    assert (Hhandlers : ∀ s h,
      ObjectContainter.subObjects c !! s = Some h →
      ∃ h',
        (AObjectTypeHandler.loaded version newHandler
           <$> ObjectContainter.subObjects c) !! s = Some h' ∧
        AObjectTypeHandler.type h' = AObjectTypeHandler.type h ∧
        AObjectTypeHandler.subtype h' = AObjectTypeHandler.subtype h ∧
        AObjectTypeHandler.templates h' = AObjectTypeHandler.templates h ∧
        AObjectTypeHandler.rmgInfo h' = AObjectTypeHandler.rmgInfo h ∧
        AObjectTypeHandler.objectName h' = AObjectTypeHandler.objectName h ∧
        (759 ≤ version →
         AObjectTypeHandler.typeName h' = AObjectTypeHandler.typeName h ∧
         AObjectTypeHandler.subTypeName h'
         = AObjectTypeHandler.subTypeName h)).
    { intros s h Hh. rewrite lookup_fmap, Hh. cbn. eexists. split; [done |].
      unfold AObjectTypeHandler.loaded.
      case_bool_decide; cbn; split_and!; try done; lia. }
    case_bool_decide; cbn; split_and!; try done;
      try apply dom_fmap_L; lia.
Qed.

(** X7. Loading a stream and saving the result writes the same stream
    again, for a handler, for a container and for a whole registry, in any
    format version: what loading cannot restore is exactly what saving does
    not write. *)
Theorem save_after_load_is_stable
    (newContainer : ObjectContainter.t) (newHandler : AObjectTypeHandler.t)
    (version : Z) (rest : list Item) :
  let hs := AObjectTypeHandler.serialize version in
  let cs := ObjectContainter.serialize newHandler version in
  let rs := CObjectClassesHandler.serialize newContainer newHandler version in
  (∀ target h,
     ∃ h', load hs target (save hs h ++ rest) = Some (h', rest) ∧
           save hs h' = save hs h) ∧
  (∀ target c,
     ∃ c', load cs target (save cs c ++ rest) = Some (c', rest) ∧
           save cs c' = save cs c) ∧
  (∀ target r,
     ∃ r', load rs target (save rs r ++ rest) = Some (r', rest) ∧
           save rs r' = save rs r).
Proof.
  cbn zeta. split_and!.
  - intros target h. eexists. split; [apply handler_load_save |].
    apply handler_save_loaded.
  - intros target c. eexists. split; [apply container_load_save |].
    apply container_save_loaded.
  - intros target r. eexists. split; [apply registry_load_save |].
    unfold CObjectClassesHandler.serialize.
    cbn [save CObjectClassesHandler.objects
           CObjectClassesHandler.with_objects].
    f_equal. apply map_codec_put_fmap. intros c.
    apply container_save_loaded.
Qed.

End RegistryRoundTrip.

(** ** The legacy definitions *)

Section LegacyFacts.
Context {ext : Collaborators}.













(** X10. The format depends on the version through the threshold 759
    only: for two versions on the same side of it the three [serialize]
    members of the registry hand the same members to the archive, and
    [RandomMapInfo::serialize], [CGDefInfo::serialize] and
    [CDefObjInfoHandler::serialize] hand over the same members in every
    version. *)
Theorem serialize_depends_on_threshold_only
    (newContainer : ObjectContainter.t) (newHandler : AObjectTypeHandler.t)
    (newInfo : CGDefInfo.t) (v1 v2 : Z) :
  (STRING_ID_VERSION ≤ v1 ↔ STRING_ID_VERSION ≤ v2) →
  AObjectTypeHandler.serialize v1 = AObjectTypeHandler.serialize v2 ∧
  ObjectContainter.serialize newHandler v1
  = ObjectContainter.serialize newHandler v2 ∧
  CObjectClassesHandler.serialize newContainer newHandler v1
  = CObjectClassesHandler.serialize newContainer newHandler v2 ∧
  (∀ v v', RandomMapInfo_serialize v = RandomMapInfo_serialize v' ∧
           CGDefInfo_serialize v = CGDefInfo_serialize v' ∧
           CDefObjInfoHandler.serialize newInfo v
           = CDefObjInfoHandler.serialize newInfo v').
Proof.
  unfold STRING_ID_VERSION. intros Hside.
  assert (Hgate : bool_decide (v1 >= 759) = bool_decide (v2 >= 759)).
  { apply bool_decide_ext. lia. }
  assert (Hh : AObjectTypeHandler.serialize v1
               = AObjectTypeHandler.serialize v2).
  { unfold AObjectTypeHandler.serialize. by rewrite Hgate. }
  assert (Hc : ObjectContainter.serialize newHandler v1
               = ObjectContainter.serialize newHandler v2).
  { unfold ObjectContainter.serialize. by rewrite Hgate, Hh. }
  split_and!; [done | done | | done].
  unfold CObjectClassesHandler.serialize. by rewrite Hc.
Qed.

End LegacyFacts.

(** ** The registry *)

Section RegistryFacts.
Context {ext : Collaborators}.

Local Abbreviation objects := CObjectClassesHandler.objects.
Local Abbreviation subObjects := ObjectContainter.subObjects.
Local Abbreviation subIds := ObjectContainter.subIds.
Local Abbreviation identifier := ObjectContainter.identifier.
Local Abbreviation resolveType := CObjectClassesHandler.resolveType.
Local Abbreviation consistent := CObjectClassesHandler.consistent.

(** *** Resolving a type string *)

Lemma resolveType_Some (q : string) (r : CObjectClassesHandler.t) (T : Z) :
  resolveType q r = Some T →
  ∃ obj, objects r !! T = Some obj ∧ identifier obj = q.
Proof.
  unfold resolveType. intros ([i [T' obj]] & Hfind & ->)%fmap_Some.
  apply list_find_Some in Hfind as (Hi & Hq & _).
  exists obj. split; [| done].
  apply elem_of_map_to_list. by eapply list_elem_of_lookup_2.
Qed.

Lemma resolveType_None (q : string) (r : CObjectClassesHandler.t) :
  resolveType q r = None ↔
  ∀ T obj, objects r !! T = Some obj → identifier obj ≠ q.
Proof.
  unfold resolveType. rewrite fmap_None, list_find_None, Forall_forall.
  split.
  - intros Hall T obj Hobj. by apply (Hall (T, obj)), elem_of_map_to_list.
  - intros Hall [T obj] Hin%elem_of_map_to_list. by apply (Hall T).
Qed.

Lemma resolveType_registered (r : CObjectClassesHandler.t) (T : Z)
    (obj : ObjectContainter.t) :
  consistent r → objects r !! T = Some obj →
  resolveType (identifier obj) r = Some T.
Proof.
  intros Hr Hobj.
  destruct (resolveType (identifier obj) r) as [T' |] eqn:Hres.
  - apply resolveType_Some in Hres as (obj' & Hobj' & Hq).
    f_equal.
    by eapply (CObjectClassesHandler.consistent_identifier r Hr T' T).
  - exfalso. by eapply (proj1 (resolveType_None _ _) Hres T obj).
Qed.

(** *** What the three calls do *)

Lemma loadObject_run (scope name : string) (data : JsonNode)
    (index : option Z) (r : CObjectClassesHandler.t) :
  let q := CObjectClassesHandler.qualify scope name in
  let i := CObjectClassesHandler.selectNextID index (objects r) in
  CObjectClassesHandler.loadObject scope name data index r
  = if bool_decide (resolveType q r = None) then
      if bool_decide (objects r !! i = None) then
        (Ok tt,
         CObjectClassesHandler.with_objects
           (<[i := ObjectContainter.Build i q (readName data)
                     (readHandlerName data) (readBase data) ∅ ∅]>
              (objects r)) r)
      else (Throw DuplicateDefinition, r)
    else (Throw DuplicateDefinition, r).
Proof.
  cbn. unfold CObjectClassesHandler.loadObject, CObjectClassesHandler.bind,
    CObjectClassesHandler.this, CObjectClassesHandler.require,
    CObjectClassesHandler.assign, CObjectClassesHandler.throw,
    CObjectClassesHandler.ret.
  by repeat case_bool_decide.
Qed.

(** The registry a successful [loadSubObject] leaves behind. *)
Lemma loadSubObject_run (q : string) (config : JsonNode) (ID : Z)
    (subID : option Z) (r : CObjectClassesHandler.t) :
  (CObjectClassesHandler.loadSubObject q config ID subID r).2 = r ∨
  ∃ obj h,
    let S := CObjectClassesHandler.selectNextID subID (subObjects obj) in
    objects r !! ID = Some obj ∧
    subObjects obj !! S = None ∧
    subIds obj !! q = None ∧
    AObjectTypeHandler.type h = ID ∧
    AObjectTypeHandler.subtype h = S ∧
    AObjectTypeHandler.typeName h = identifier obj ∧
    AObjectTypeHandler.subTypeName h = q ∧
    (CObjectClassesHandler.loadSubObject q config ID subID r).2
    = CObjectClassesHandler.with_objects
        (<[ID := ObjectContainter.with_subIds (<[q := S]> (subIds obj))
                   (ObjectContainter.with_subObjects
                      (<[S := h]> (subObjects obj)) obj)]> (objects r)) r.
Proof.
  unfold CObjectClassesHandler.loadSubObject, CObjectClassesHandler.bind,
    CObjectClassesHandler.this, CObjectClassesHandler.require,
    CObjectClassesHandler.assign, CObjectClassesHandler.orThrow,
    CObjectClassesHandler.throw, CObjectClassesHandler.ret.
  destruct (objects r !! ID) as [obj |] eqn:Hobj; [| by left].
  destruct (CObjectClassesHandler.handlerConstructors r
              !! ObjectContainter.handlerName obj) as [h0 |]; [| by left].
  destruct (AObjectTypeHandler.init _ None h0) as [h1 |]; [| by left].
  repeat case_bool_decide; try by left.
  right.
  exists obj,
    (AObjectTypeHandler.setTypeName (identifier obj) q
       (AObjectTypeHandler.setType ID
          (CObjectClassesHandler.selectNextID subID (subObjects obj)) h1)).
  cbn. by split_and!.
Qed.

Lemma removeSubObject_run (ID subID : Z) (r : CObjectClassesHandler.t) :
  CObjectClassesHandler.removeSubObject ID subID r
  = match objects r !! ID with
    | None => (Ok tt, r)
    | Some obj =>
        match subObjects obj !! subID with
        | None => (Ok tt, r)
        | Some h =>
            (Ok tt,
             CObjectClassesHandler.with_objects
               (<[ID := ObjectContainter.with_subIds
                          (delete (AObjectTypeHandler.subTypeName h)
                             (subIds obj))
                          (ObjectContainter.with_subObjects
                             (delete subID (subObjects obj)) obj)]>
                  (objects r)) r)
        end
    end.
Proof.
  unfold CObjectClassesHandler.removeSubObject, CObjectClassesHandler.bind,
    CObjectClassesHandler.this, CObjectClassesHandler.assign,
    CObjectClassesHandler.ret. cbn.
  destruct (objects r !! ID) as [obj |]; [| done].
  by destruct (subObjects obj !! subID).
Qed.

End RegistryFacts.

Section RegistryInvariant.
Context {ext : Collaborators}.

Local Abbreviation objects := CObjectClassesHandler.objects.
Local Abbreviation subObjects := ObjectContainter.subObjects.
Local Abbreviation subIds := ObjectContainter.subIds.
Local Abbreviation identifier := ObjectContainter.identifier.
Local Abbreviation resolveType := CObjectClassesHandler.resolveType.
Local Abbreviation consistent := CObjectClassesHandler.consistent.

Lemma consistent_new (constructors : gmap string AObjectTypeHandler.t) :
  consistent (CObjectClassesHandler.new constructors).
Proof.
  split; cbn; intros *; by rewrite lookup_empty.
Qed.

Lemma consistent_loadObject (scope name : string) (data : JsonNode)
    (index : option Z) (r : CObjectClassesHandler.t) :
  consistent r →
  consistent (CObjectClassesHandler.loadObject scope name data index r).2.
Proof.
  intros [Hh Hs Hi Hid]. rewrite loadObject_run. cbn zeta.
  case_bool_decide as Hfresh; [| by split].
  case_bool_decide as Hfree; [| by split].
  set (i := CObjectClassesHandler.selectNextID index (objects r)) in *.
  set (q := CObjectClassesHandler.qualify scope name) in *.
  assert (Hq : ∀ T obj, objects r !! T = Some obj → identifier obj ≠ q)
    by by apply resolveType_None.
  split; cbn.
  - intros T obj S h [[<- <-] | [Hne Hobj]]%lookup_insert_Some; cbn.
    + by rewrite lookup_empty.
    + by apply Hh.
  - intros T obj s S [[<- <-] | [Hne Hobj]]%lookup_insert_Some; cbn.
    + by rewrite lookup_empty.
    + by apply (Hs T).
  - intros T1 T2 obj1 obj2
      [[<- <-] | [Hne1 Hobj1]]%lookup_insert_Some
      [[<- <-] | [Hne2 Hobj2]]%lookup_insert_Some; cbn; intros Heq.
    + done.
    + by destruct (Hq T2 obj2).
    + by destruct (Hq T1 obj1).
    + by apply (Hi T1 T2 obj1 obj2).
  - intros T obj [[<- <-] | [Hne Hobj]]%lookup_insert_Some; cbn.
    + done.
    + by apply Hid.
Qed.

Lemma consistent_loadSubObject (q : string) (config : JsonNode) (ID : Z)
    (subID : option Z) (r : CObjectClassesHandler.t) :
  consistent r →
  consistent (CObjectClassesHandler.loadSubObject q config ID subID r).2.
Proof.
  intros [Hh Hs Hi Hid].
  destruct (loadSubObject_run q config ID subID r)
    as [-> | (obj0 & h0 & Hobj0 & Hfree & Hnew & Ht & Hst & Htn & Hsn & ->)];
    [by split |].
  set (S0 := CObjectClassesHandler.selectNextID subID (subObjects obj0)) in *.
  split; cbn.
  - intros T obj S h [[<- <-] | [Hne Hobj]]%lookup_insert_Some; cbn.
    + intros [[<- <-] | [HneS Hsub]]%lookup_insert_Some.
      * rewrite Hsn, lookup_insert_eq. by split_and!.
      * destruct (Hh _ _ _ _ Hobj0 Hsub) as (? & ? & ? & Hrev).
        split_and!; [done .. |].
        rewrite lookup_insert_ne; [done |]. intros ->. congruence.
    + by apply Hh.
  - intros T obj s S [[<- <-] | [Hne Hobj]]%lookup_insert_Some; cbn.
    + intros [[<- <-] | [Hnes Hrev]]%lookup_insert_Some.
      * exists h0. by rewrite lookup_insert_eq.
      * destruct (Hs _ _ _ _ Hobj0 Hrev) as (h & Hsub & Hname).
        exists h. split; [| done].
        rewrite lookup_insert_ne; [done |]. intros <-. congruence.
    + by apply (Hs T).
  - intros T1 T2 obj1 obj2
      [[<- <-] | [Hne1 Hobj1]]%lookup_insert_Some
      [[<- <-] | [Hne2 Hobj2]]%lookup_insert_Some; cbn; intros Heq.
    + done.
    + by apply (Hi ID T2 obj0 obj2).
    + by apply (Hi T1 ID obj1 obj0).
    + by apply (Hi T1 T2 obj1 obj2).
  - intros T obj [[<- <-] | [Hne Hobj]]%lookup_insert_Some; cbn.
    + by apply Hid.
    + by apply Hid.
Qed.

Lemma consistent_removeSubObject (ID subID : Z)
    (r : CObjectClassesHandler.t) :
  consistent r →
  consistent (CObjectClassesHandler.removeSubObject ID subID r).2.
Proof.
  intros [Hh Hs Hi Hid]. rewrite removeSubObject_run.
  destruct (objects r !! ID) as [obj0 |] eqn:Hobj0; [| by split].
  destruct (subObjects obj0 !! subID) as [h0 |] eqn:Hsub0; [| by split].
  destruct (Hh _ _ _ _ Hobj0 Hsub0) as (_ & _ & _ & Hrev0).
  split; cbn.
  - intros T obj S h [[<- <-] | [Hne Hobj]]%lookup_insert_Some; cbn.
    + intros [HneS Hsub]%lookup_delete_Some.
      destruct (Hh _ _ _ _ Hobj0 Hsub) as (? & ? & ? & Hrev).
      split_and!; [done .. |].
      rewrite lookup_delete_ne; [done |]. intros Heq.
      rewrite Heq in Hrev0. congruence.
    + by apply Hh.
  - intros T obj s S [[<- <-] | [Hne Hobj]]%lookup_insert_Some; cbn.
    + intros [Hnes Hrev]%lookup_delete_Some.
      destruct (Hs _ _ _ _ Hobj0 Hrev) as (h & Hsub & Hname).
      exists h. split; [| done].
      rewrite lookup_delete_ne; [done |]. intros <-. congruence.
    + by apply (Hs T).
  - intros T1 T2 obj1 obj2
      [[<- <-] | [Hne1 Hobj1]]%lookup_insert_Some
      [[<- <-] | [Hne2 Hobj2]]%lookup_insert_Some; cbn; intros Heq.
    + done.
    + by apply (Hi ID T2 obj0 obj2).
    + by apply (Hi T1 ID obj1 obj0).
    + by apply (Hi T1 T2 obj1 obj2).
  - intros T obj [[<- <-] | [Hne Hobj]]%lookup_insert_Some; cbn.
    + by apply Hid.
    + by apply Hid.
Qed.

Lemma consistent_step (r r' : CObjectClassesHandler.t) :
  CObjectClassesHandler.step r r' → consistent r → consistent r'.
Proof.
  destruct 1; auto using consistent_loadObject, consistent_loadSubObject,
    consistent_removeSubObject.
Qed.

(** Every reachable registry is consistent. *)
Lemma consistent_reachable (r : CObjectClassesHandler.t) :
  CObjectClassesHandler.reachable r → consistent r.
Proof.
  induction 1 as [constructors | r r' _ IH Hstep].
  - apply consistent_new.
  - by eapply consistent_step.
Qed.

End RegistryInvariant.

Section RegistryProperties.
Context {ext : Collaborators}.

Local Abbreviation objects := CObjectClassesHandler.objects.
Local Abbreviation subObjects := ObjectContainter.subObjects.
Local Abbreviation subIds := ObjectContainter.subIds.
Local Abbreviation identifier := ObjectContainter.identifier.

(** A successful [loadObject] leaves a container that carries the qualified
    name. *)
Lemma loadObject_registers (scope name : string) (data : JsonNode)
    (index : option Z) (r r' : CObjectClassesHandler.t) :
  CObjectClassesHandler.loadObject scope name data index r = (Ok tt, r') →
  ∃ T obj, objects r' !! T = Some obj ∧
           identifier obj = CObjectClassesHandler.qualify scope name.
Proof.
  rewrite loadObject_run. cbn zeta.
  repeat case_bool_decide; intros [= <-].
  eexists _, _. cbn. by rewrite lookup_insert_eq.
Qed.

(** C1. When a container already carries the qualified name, [loadObject]
    with that name, with or without an explicit index, throws
    [DuplicateDefinition] and leaves the registry exactly as it was: no
    entry is overwritten. *)
Theorem loadObject_duplicate_fails (scope name : string) (data : JsonNode)
    (index : option Z) (r : CObjectClassesHandler.t) :
  (∃ T obj, objects r !! T = Some obj ∧
            identifier obj = CObjectClassesHandler.qualify scope name) →
  CObjectClassesHandler.loadObject scope name data index r
  = (Throw DuplicateDefinition, r).
Proof.
  intros (T & obj & Hobj & Hq). rewrite loadObject_run. cbn zeta.
  rewrite bool_decide_false; [done |].
  intros Hnone. by eapply (proj1 (resolveType_None _ _) Hnone T obj).
Qed.

(** C2. In a reachable registry, for every registered pair [(T, S)] the
    numeric lookup succeeds, the handler it returns carries the pair and the
    qualified strings recorded for it, and the string lookup with the
    identifier of the container and a string that the reverse map sends to
    [S] succeeds as well and returns a handler with the same [type],
    [subtype], [typeName] and [subTypeName]. *)
Theorem getHandlerFor_numeric_and_string_agree
    (r : CObjectClassesHandler.t) (T S : Z) :
  CObjectClassesHandler.reachable r →
  (∃ obj, objects r !! T = Some obj ∧ S ∈ dom (subObjects obj)) →
  ∃ obj h,
    objects r !! T = Some obj ∧
    CObjectClassesHandler.getHandlerFor T S r = Ok h ∧
    AObjectTypeHandler.type h = T ∧
    AObjectTypeHandler.subtype h = S ∧
    AObjectTypeHandler.typeName h = identifier obj ∧
    subIds obj !! AObjectTypeHandler.subTypeName h = Some S ∧
    ∀ subtypeStr,
      subIds obj !! subtypeStr = Some S →
      ∃ h',
        CObjectClassesHandler.getHandlerForStr (identifier obj) subtypeStr r
        = Ok h' ∧
        AObjectTypeHandler.type h' = AObjectTypeHandler.type h ∧
        AObjectTypeHandler.subtype h' = AObjectTypeHandler.subtype h ∧
        AObjectTypeHandler.typeName h' = AObjectTypeHandler.typeName h ∧
        AObjectTypeHandler.subTypeName h' = AObjectTypeHandler.subTypeName h.
Proof.
  intros Hr%consistent_reachable (obj & Hobj & [h Hsub]%elem_of_dom).
  destruct (CObjectClassesHandler.consistent_handler r Hr _ _ _ _ Hobj Hsub)
    as (Ht & Hs & Htn & Hrev).
  exists obj, h.
  assert (Hnum : CObjectClassesHandler.getHandlerFor T S r = Ok h).
  { unfold CObjectClassesHandler.getHandlerFor. by rewrite Hobj, Hsub. }
  split_and!; [done .. |].
  intros subtypeStr Hstr. exists h.
  unfold CObjectClassesHandler.getHandlerForStr.
  by rewrite (resolveType_registered r T obj Hr Hobj), Hobj, Hstr, Hnum.
Qed.

(** C3. In every registry that a sequence of [loadObject], [loadSubObject]
    and [removeSubObject] calls produces, each container keeps its two maps
    synchronized: every subtype key of [subObjects] has an entry of
    [subIds] that maps a qualified string identifier to it. *)
Theorem subObjects_have_reverse_entries
    (r : CObjectClassesHandler.t) (T S : Z) (obj : ObjectContainter.t) :
  CObjectClassesHandler.reachable r →
  objects r !! T = Some obj →
  S ∈ dom (subObjects obj) →
  ∃ q, subIds obj !! q = Some S.
Proof.
  intros Hr%consistent_reachable Hobj [h Hsub]%elem_of_dom.
  exists (AObjectTypeHandler.subTypeName h).
  by apply (CObjectClassesHandler.consistent_handler r Hr _ _ _ _ Hobj Hsub).
Qed.

(** C4. In a reachable registry, removing a registered pair [(T, S)]
    succeeds, after which the numeric lookup of [(T, S)] throws
    [UnknownSubtype], [knownSubObjects(T)] does not contain [S], and no
    entry of the string-id map of the container leads to [S]. *)
Theorem removeSubObject_removes_both_entries
    (r : CObjectClassesHandler.t) (T S : Z) :
  CObjectClassesHandler.reachable r →
  (∃ obj, objects r !! T = Some obj ∧ S ∈ dom (subObjects obj)) →
  ∃ r' obj',
    CObjectClassesHandler.removeSubObject T S r = (Ok tt, r') ∧
    CObjectClassesHandler.getHandlerFor T S r' = Throw UnknownSubtype ∧
    (∃ known, CObjectClassesHandler.knownSubObjects T r' = Ok known ∧
              S ∉ known) ∧
    objects r' !! T = Some obj' ∧
    ∀ q, subIds obj' !! q ≠ Some S.
Proof.
  intros Hr%consistent_reachable (obj & Hobj & [h Hsub]%elem_of_dom).
  rewrite removeSubObject_run, Hobj, Hsub.
  eexists _, _. split; [done |].
  unfold CObjectClassesHandler.getHandlerFor,
    CObjectClassesHandler.knownSubObjects. cbn.
  rewrite lookup_insert_eq. cbn. rewrite lookup_delete_eq.
  split_and!; [done | | done |].
  - eexists. split; [done |]. rewrite dom_delete_L, elem_of_difference.
    intros [_ Hnot]. by apply Hnot, elem_of_singleton.
  - intros q Hq. cbn in Hq.
    apply lookup_delete_Some in Hq as [Hne Hrev].
    destruct (CObjectClassesHandler.consistent_subIds r Hr _ _ _ _ Hobj Hrev)
      as (h' & Hsub' & Hname).
    congruence.
Qed.

End RegistryProperties.

(** ** The properties on the sample content *)

Lemma sample_registry_reachable :
  CObjectClassesHandler.reachable Sample.registry3.
Proof.
  eapply CObjectClassesHandler.reachable_step;
    [| exact (CObjectClassesHandler.step_loadSubObject
                (ext := Sample.collaborators)
                "core:orcDwelling" Sample.orc 5 (Some 3) Sample.registry2)].
  eapply CObjectClassesHandler.reachable_step;
    [| exact (CObjectClassesHandler.step_loadSubObject
                (ext := Sample.collaborators)
                "core:elfDwelling" Sample.elf 5 None Sample.registry1)].
  eapply CObjectClassesHandler.reachable_step;
    [| exact (CObjectClassesHandler.step_loadObject
                (ext := Sample.collaborators)
                "core" "dwelling" Sample.dwelling (Some 5) Sample.registry0)].
  apply CObjectClassesHandler.reachable_new.
Qed.

Lemma sample_dwelling_registered :
  CObjectClassesHandler.objects Sample.registry3 !! 5
  = Some Sample.dwellingObject.
Proof. vm_compute. reflexivity. Qed.

Lemma sample_orc_registered :
  3 ∈ dom (ObjectContainter.subObjects Sample.dwellingObject).
Proof. apply elem_of_dom. eexists. vm_compute. reflexivity. Qed.

(** The sample registry answers the queries as expected: the subtypes of
    the type 5 are 0, assigned by the registry, and 3, given by the caller;
    the handler-name is found; and the string lookup of "core:orcDwelling"
    finds the handler of subtype 3. *)
Example sample_registry_queries :
  CObjectClassesHandler.knownSubObjects 5 Sample.registry3 = Ok {[0; 3]} ∧
  CObjectClassesHandler.getObjectHandlerName 5 Sample.registry3
  = Ok "creatureGenerator"%string ∧
  ∃ h,
    CObjectClassesHandler.getHandlerForStr "core:dwelling" "core:orcDwelling"
      Sample.registry3 = Ok h ∧
    AObjectTypeHandler.subtype h = 3.
Proof.
  split_and!.
  - vm_compute. reflexivity.
  - vm_compute. reflexivity.
  - eexists. split; [vm_compute; reflexivity | reflexivity].
Qed.

(** Loading "core:dwelling" once more into the sample registry. *)
Lemma loadObject_duplicate_fails_witness :
  CObjectClassesHandler.loadObject (ext := Sample.collaborators)
    "core" "dwelling" Sample.dwelling None Sample.registry3
  = (Throw DuplicateDefinition, Sample.registry3).
Proof.
  apply loadObject_duplicate_fails.
  exists 5, Sample.dwellingObject. split.
  - exact sample_dwelling_registered.
  - vm_compute. reflexivity.
Defined.

(** The pair (5, 3) of the sample registry, "core:orcDwelling". *)
Lemma getHandlerFor_numeric_and_string_agree_witness :
  ∃ obj h,
    CObjectClassesHandler.objects Sample.registry3 !! 5 = Some obj ∧
    CObjectClassesHandler.getHandlerFor 5 3 Sample.registry3 = Ok h ∧
    AObjectTypeHandler.type h = 5 ∧
    AObjectTypeHandler.subtype h = 3 ∧
    AObjectTypeHandler.typeName h = ObjectContainter.identifier obj ∧
    ObjectContainter.subIds obj !! AObjectTypeHandler.subTypeName h = Some 3 ∧
    ∀ subtypeStr,
      ObjectContainter.subIds obj !! subtypeStr = Some 3 →
      ∃ h',
        CObjectClassesHandler.getHandlerForStr
          (ObjectContainter.identifier obj) subtypeStr Sample.registry3
        = Ok h' ∧
        AObjectTypeHandler.type h' = AObjectTypeHandler.type h ∧
        AObjectTypeHandler.subtype h' = AObjectTypeHandler.subtype h ∧
        AObjectTypeHandler.typeName h' = AObjectTypeHandler.typeName h ∧
        AObjectTypeHandler.subTypeName h' = AObjectTypeHandler.subTypeName h.
Proof.
  apply (getHandlerFor_numeric_and_string_agree Sample.registry3 5 3).
  - exact sample_registry_reachable.
  - exists Sample.dwellingObject. split.
    + exact sample_dwelling_registered.
    + exact sample_orc_registered.
Defined.

(** The subtype 3 of the sample container has a reverse entry. *)
Lemma subObjects_have_reverse_entries_witness :
  ∃ q, ObjectContainter.subIds Sample.dwellingObject !! q = Some 3.
Proof.
  apply (subObjects_have_reverse_entries Sample.registry3 5 3).
  - exact sample_registry_reachable.
  - exact sample_dwelling_registered.
  - exact sample_orc_registered.
Defined.

(** Removing the pair (5, 3) from the sample registry. *)
Lemma removeSubObject_removes_both_entries_witness :
  ∃ r' obj',
    CObjectClassesHandler.removeSubObject 5 3 Sample.registry3 = (Ok tt, r') ∧
    CObjectClassesHandler.getHandlerFor 5 3 r' = Throw UnknownSubtype ∧
    (∃ known, CObjectClassesHandler.knownSubObjects 5 r' = Ok known ∧
              3 ∉ known) ∧
    CObjectClassesHandler.objects r' !! 5 = Some obj' ∧
    ∀ q, ObjectContainter.subIds obj' !! q ≠ Some 3.
Proof.
  apply (removeSubObject_removes_both_entries Sample.registry3 5 3).
  - exact sample_registry_reachable.
  - exists Sample.dwellingObject. split.
    + exact sample_dwelling_registered.
    + exact sample_orc_registered.
Defined.

(** The stream of the sample handler in format 759, the first format with
    string identifiers. *)
Lemma serialize_string_ids_version_gated_witness :
  STRING_ID_VERSION ≤ 759 ∧
  save (AObjectTypeHandler.serialize 759) Sample.newHandler
  = [ISi32 (-1); ISi32 (-1); ILength 0;
     IUi32 0; IUi32 0; IUi32 0; IUi32 0; IBool false;
     IString ""; IString ""].
Proof.
  assert (Hv : STRING_ID_VERSION ≤ 759) by (unfold STRING_ID_VERSION; lia).
  split; [exact Hv |].
  exact (proj1 (proj1 (serialize_string_ids_version_gated 759
                         Sample.newHandler Sample.newHandler Sample.newHandler
                         Sample.newContainer Sample.newContainer []) Hv)).
Defined.

(** Loading the stream of the sample container into a new container. *)
Lemma container_id_not_serialized_witness :
  load (ObjectContainter.serialize Sample.newHandler 759) Sample.newContainer
    (save (ObjectContainter.serialize Sample.newHandler 759)
       (ObjectContainter.with_id 5 Sample.dwellingObject))
  = Some (ObjectContainter.loaded Sample.newHandler 759 Sample.newContainer
            Sample.dwellingObject, []) ∧
  ObjectContainter.id
    (ObjectContainter.loaded Sample.newHandler 759 Sample.newContainer
       Sample.dwellingObject)
  = ObjectContainter.id Sample.newContainer.
Proof.
  assert (Hload :
    load (ObjectContainter.serialize Sample.newHandler 759)
      Sample.newContainer
      (save (ObjectContainter.serialize Sample.newHandler 759)
         (ObjectContainter.with_id 5 Sample.dwellingObject))
    = Some (ObjectContainter.loaded Sample.newHandler 759 Sample.newContainer
              Sample.dwellingObject, [])).
  { vm_compute. reflexivity. }
  split; [exact Hload |].
  exact (proj1 (proj2 (container_id_not_serialized Sample.newContainer
                         Sample.newHandler 759)) _ _ _ _ Hload).
Defined.




(** The versions 759 and 760, both with string identifiers. *)
Lemma serialize_depends_on_threshold_only_witness :
  AObjectTypeHandler.serialize (ext := Sample.collaborators) 759
  = AObjectTypeHandler.serialize 760.
Proof.
  refine (proj1 (serialize_depends_on_threshold_only
                   (ext := Sample.collaborators) Sample.newContainer
                   Sample.newHandler LegacySample.tree 759 760 _)).
  unfold STRING_ID_VERSION. lia.
Defined.
